(** * Will it Rain on My Parade? / EventSky

    A shallow embedding of the two Streamlit scripts [app.py] (sidebar radio
    navigation) and [main_app.py] (tab navigation): the model loader, the two
    Open-Meteo fetchers, the geocoding block and the four views, together
    with the Python values, exceptions and library calls they rely on. *)

From Stdlib Require Import ZArith String Ascii List Bool Lia Sorted.
From Stdlib Require Import SpecFloat.
From stdpp Require Import base option countable gmap strings.

Import ListNotations.
Local Open Scope Z_scope.
Local Open Scope string_scope.

(** ** Python floats

    A Python [float] is an IEEE 754 binary64 number; [spec_float] is the
    Standard Library's inductive description of those (zeros, infinities,
    NaN and sign/mantissa/exponent triples). *)

Module PyFloat.

Definition prec : Z := 53.
Definition emax : Z := 1024.

Definition mul : spec_float -> spec_float -> spec_float := SFmul prec emax.
Definition sub : spec_float -> spec_float -> spec_float := SFsub prec emax.

(** [x > y] and [x <= y]; both are [False] as soon as one side is NaN. *)
Definition gt (x y : spec_float) : bool := SFltb y x.
Definition le (x y : spec_float) : bool := SFleb x y.

(** [bool(x)]: every float other than [0.0] and [-0.0] is truthy. *)
Definition truthy (x : spec_float) : bool :=
  match x with S754_zero _ => false | _ => true end.

(** The literals occurring in the scripts and in the spec's examples,
    as the nearest binary64 numbers. *)
Definition f0_6 : spec_float := S754_finite false 5404319552844595 (-53).
Definition f100 : spec_float := S754_finite false 7036874417766400 (-46).
Definition f0_75 : spec_float := S754_finite false 6755399441055744 (-53).
Definition f28_40 : spec_float := S754_finite false 7993889338582630 (-48).
Definition f77_31 : spec_float := S754_finite false 5440207612375204 (-46).

End PyFloat.

Global Instance spec_float_eq_dec : EqDecision spec_float.
Proof. solve_decision. Defined.

Definition spec_float_code (x : spec_float) : bool + bool + (unit + bool * positive * Z) :=
  match x with
  | S754_zero s => inl (inl s)
  | S754_infinity s => inl (inr s)
  | S754_nan => inr (inl tt)
  | S754_finite s m e => inr (inr (s, m, e))
  end.

Definition spec_float_decode (c : bool + bool + (unit + bool * positive * Z)) : spec_float :=
  match c with
  | inl (inl s) => S754_zero s
  | inl (inr s) => S754_infinity s
  | inr (inl _) => S754_nan
  | inr (inr (s, m, e)) => S754_finite s m e
  end.

Global Instance spec_float_countable : Countable spec_float.
Proof.
  apply (inj_countable' spec_float_code spec_float_decode).
  intros []; reflexivity.
Defined.

(** ** Python values, as [json.loads] and the classifier produce them *)

#[warnings="-register-all"]
Inductive pyval : Type :=
  | PNone
  | PBool (b : bool)
  | PInt (z : Z)
  | PFloat (x : spec_float)
  | PStr (s : string)
  | PList (l : list pyval)
  | PDict (d : list (string * pyval)).

(** ** Exceptions

    Every exception below is a subclass of [Exception]; [KeyboardInterrupt]
    and the other [BaseException]s that [except Exception] lets through are
    not modelled. *)

Inductive exn_class : Type :=
  | KeyError | IndexError | TypeError | ValueError | OverflowError
  | FileNotFoundError | OSError | UnpicklingError
  | ConnectionError | HTTPError | JSONDecodeError
  | GeocoderError | LibraryError.

Global Instance exn_class_eq_dec : EqDecision exn_class.
Proof. solve_decision. Defined.

Record exn : Type := MkExn { exn_cls : exn_class; exn_str : string }.

Inductive result (A : Type) : Type :=
  | Ok (a : A)
  | Raise (e : exn).
Arguments Ok {A} a.
Arguments Raise {A} e.

Module Py.

(** [bool(v)] *)
Definition truthy (v : pyval) : bool :=
  match v with
  | PNone => false
  | PBool b => b
  | PInt z => negb (Z.eqb z 0)
  | PFloat x => PyFloat.truthy x
  | PStr s => negb (String.eqb s "")
  | PList l => match l with [] => false | _ => true end
  | PDict d => match d with [] => false | _ => true end
  end.

(** [d.get(k)] on the association list of a dict; [json.loads] keeps one
    binding per key. *)
Fixpoint lookup (k : string) (d : list (string * pyval)) : option pyval :=
  match d with
  | [] => None
  | (k', v) :: d' => if String.eqb k k' then Some v else lookup k d'
  end.

(** [needle in haystack] for two strings. *)
Fixpoint substring_of (needle hay : string) : bool :=
  if String.prefix needle hay then true
  else match hay with
       | EmptyString => false
       | String _ hay' => substring_of needle hay'
       end.

Definition is_str (k : string) (v : pyval) : bool :=
  match v with PStr s => String.eqb k s | _ => false end.

(** [k in v] for a string [k] *)
Definition contains (k : string) (v : pyval) : result bool :=
  match v with
  | PDict d => Ok (match lookup k d with Some _ => true | None => false end)
  | PList l => Ok (existsb (is_str k) l)
  | PStr s => Ok (substring_of k s)
  | PNone => Raise (MkExn TypeError "argument of type 'NoneType' is not iterable")
  | PBool _ => Raise (MkExn TypeError "argument of type 'bool' is not iterable")
  | PInt _ => Raise (MkExn TypeError "argument of type 'int' is not iterable")
  | PFloat _ => Raise (MkExn TypeError "argument of type 'float' is not iterable")
  end.

(** [v[k]] for a string [k] *)
Definition getitem (v : pyval) (k : string) : result pyval :=
  match v with
  | PDict d =>
      match lookup k d with
      | Some x => Ok x
      | None => Raise (MkExn KeyError k)
      end
  | PList _ => Raise (MkExn TypeError "list indices must be integers or slices, not str")
  | PStr _ => Raise (MkExn TypeError "string indices must be integers, not 'str'")
  | _ => Raise (MkExn TypeError "object is not subscriptable")
  end.

(** [v[0]] *)
Definition first (v : pyval) : result pyval :=
  match v with
  | PList l =>
      match l with
      | x :: _ => Ok x
      | [] => Raise (MkExn IndexError "list index out of range")
      end
  | PStr s =>
      match s with
      | String c _ => Ok (PStr (String c EmptyString))
      | EmptyString => Raise (MkExn IndexError "string index out of range")
      end
  | PDict _ => Raise (MkExn KeyError "0")
  | _ => Raise (MkExn TypeError "object is not subscriptable")
  end.

End Py.

(** ** [datetime.date]

    The proleptic Gregorian calendar of the [datetime] module: ordinal 1 is
    0001-01-01, and [date - timedelta(days=n)] goes through the ordinal. *)

Record date : Type := MkDate { year : Z; month : Z; day : Z }.

Global Instance date_eq_dec : EqDecision date.
Proof. solve_decision. Defined.

Global Instance date_countable : Countable date.
Proof.
  apply (inj_countable' (fun d => (year d, month d, day d))
                        (fun t => MkDate t.1.1 t.1.2 t.2)).
  intros []; reflexivity.
Defined.

Module Datetime.

Definition MINYEAR : Z := 1.
Definition MAXYEAR : Z := 9999.
Definition MAXORDINAL : Z := 3652059.

Definition is_leap (y : Z) : bool :=
  (y mod 4 =? 0)%Z && (negb (y mod 100 =? 0)%Z || (y mod 400 =? 0)%Z).

Definition days_before_year (y : Z) : Z :=
  let y' := y - 1 in y' * 365 + y' / 4 - y' / 100 + y' / 400.

Definition DAYS_IN_MONTH (m : Z) : Z :=
  match m with
  | 1 => 31 | 2 => 28 | 3 => 31 | 4 => 30 | 5 => 31 | 6 => 30
  | 7 => 31 | 8 => 31 | 9 => 30 | 10 => 31 | 11 => 30 | 12 => 31
  | _ => -1
  end.

Definition DAYS_BEFORE_MONTH (m : Z) : Z :=
  match m with
  | 1 => 0 | 2 => 31 | 3 => 59 | 4 => 90 | 5 => 120 | 6 => 151
  | 7 => 181 | 8 => 212 | 9 => 243 | 10 => 273 | 11 => 304 | 12 => 334
  | _ => -1
  end.

Definition days_in_month (y m : Z) : Z :=
  if (m =? 2)%Z && is_leap y then 29 else DAYS_IN_MONTH m.

Definition days_before_month (y m : Z) : Z :=
  DAYS_BEFORE_MONTH m + (if (2 <? m)%Z && is_leap y then 1 else 0).

Definition ymd2ord (y m d : Z) : Z :=
  days_before_year y + days_before_month y m + d.

Definition DI400Y : Z := 146097.
Definition DI100Y : Z := 36524.
Definition DI4Y : Z := 1461.

Definition ord2ymd (n : Z) : date :=
  let n := n - 1 in
  let n400 := n / DI400Y in
  let n := n mod DI400Y in
  let y := n400 * 400 + 1 in
  let n100 := n / DI100Y in
  let n := n mod DI100Y in
  let n4 := n / DI4Y in
  let n := n mod DI4Y in
  let n1 := n / 365 in
  let n := n mod 365 in
  let y := y + n100 * 100 + n4 * 4 + n1 in
  if (n1 =? 4)%Z || (n100 =? 4)%Z then MkDate (y - 1) 12 31
  else
    let leapyear := (n1 =? 3)%Z && (negb (n4 =? 24)%Z || (n100 =? 3)%Z) in
    let m := Z.shiftr (n + 50) 5 in
    let preceding := DAYS_BEFORE_MONTH m + (if (2 <? m)%Z && leapyear then 1 else 0) in
    if (n <? preceding)%Z then
      let m := m - 1 in
      let preceding :=
        preceding - (DAYS_IN_MONTH m + (if (m =? 2)%Z && leapyear then 1 else 0)) in
      MkDate y m (n - preceding + 1)
    else MkDate y m (n - preceding + 1).

(** The dates [date(y, m, d)] accepts. *)
Definition valid (d : date) : Prop :=
  MINYEAR <= year d <= MAXYEAR /\ 1 <= month d <= 12 /\
  1 <= day d <= days_in_month (year d) (month d).

Definition toordinal (d : date) : Z := ymd2ord (year d) (month d) (day d).

(** [d - timedelta(days=n)] *)
Definition sub_days (d : date) (n : Z) : result date :=
  let o := toordinal d - n in
  if (0 <? o)%Z && (o <=? MAXORDINAL)%Z then Ok (ord2ymd o)
  else Raise (MkExn OverflowError "date value out of range").

Definition digit (n : Z) : string :=
  String (ascii_of_nat (48 + Z.to_nat (n mod 10))) EmptyString.

(** [str(d)], the ISO format [YYYY-MM-DD] *)
Definition isoformat (d : date) : string :=
  digit (year d / 1000) ++ digit (year d / 100) ++ digit (year d / 10) ++ digit (year d)
  ++ "-" ++ digit (month d / 10) ++ digit (month d)
  ++ "-" ++ digit (day d / 10) ++ digit (day d).

End Datetime.

(** ** The session, the classifier and the HTTP responses *)

Inductive EventType : Type := Picnic | Concert | Wedding | Sports | Other.

Record time : Type := MkTime { hour : Z; minute : Z }.

(** [st.session_state] *)
Record Session : Type := MkSession {
  latitude : spec_float;
  longitude : spec_float;
  event_date : date;
  event_time : time;
  event_type : EventType;
  crowd_size : Z
}.

(** A [pd.DataFrame] built from a dict of columns: the columns in insertion
    order, each with its cells. *)
Definition DataFrame : Type := list (string * list pyval).

(** The unpickled classifier is opaque: all the scripts use are its two
    methods, which return one entry per input row and may raise. An
    unpickled estimator object is truthy. *)
Record Classifier : Type := MkClassifier {
  predict : DataFrame -> result (list Z);
  predict_proba : DataFrame -> result (list (list spec_float))
}.

(** What [requests.get] hands back: the status line and what [res.json()]
    evaluates to on the body. *)
Record Response : Type := MkResponse {
  status_code : Z;
  json : result pyval
}.

(** [res.raise_for_status()] of requests: an [HTTPError] for the client
    and server error statuses, nothing otherwise. *)
Definition raise_for_status (res : Response) : result unit :=
  if (400 <=? status_code res)%Z && (status_code res <? 600)%Z
  then Raise (MkExn HTTPError "HTTP error for url")
  else Ok tt.

(** A geopy [Location]; it is a non-empty sequence, hence truthy. *)
Record Location : Type := MkLocation {
  address : string;
  loc_latitude : spec_float;
  loc_longitude : spec_float
}.

(** One row of the history table: ['Year'] and ['Rainfall (mm)']. *)
Record HistoryRow : Type := MkRow { row_year : Z; row_rainfall : pyval }.

(** The two scripts differ in navigation and in some of their texts. *)
Inductive Variant : Type := RadioNav | TabNav.

Inductive Section_ : Type :=
  | EventInput | ForecastDashboard | History | Suggestions.

(** What the widgets of the Event Input view return on a rerun. *)
Record Widgets : Type := MkWidgets {
  location_name : string;
  last_clicked : option (spec_float * spec_float);
  date_input : date;
  time_input : time;
  selectbox : EventType;
  slider : Z
}.

Definition event_type_str (t : EventType) : string :=
  match t with
  | Picnic => "Picnic" | Concert => "Concert" | Wedding => "Wedding"
  | Sports => "Sports" | Other => "Other"
  end.

(** ** SESSION STATE INITIALIZATION

    The values the scripts seed [st.session_state] with; the date is
    [date.today() + timedelta(days=1)]. *)
Definition default_session (tomorrow : date) : Session :=
  MkSession PyFloat.f28_40 PyFloat.f77_31 tomorrow (MkTime 18 0) Picnic 500.

(** ** Sample worlds

    Concrete payloads, classifiers and services to run the scripts on. *)

Module Sample.

Definition f0_25 : spec_float := S754_finite false 4503599627370496 (-54).
Definition f31_5 : spec_float := S754_finite false 8866461766385664 (-48).
Definition f24 : spec_float := S754_finite false 6755399441055744 (-48).
Definition f12_5 : spec_float := S754_finite false 7036874417766400 (-49).

(** A classifier that predicts rain with probability 0.75. *)
Definition classifier : Classifier :=
  MkClassifier (fun _ => Ok [1]) (fun _ => Ok [[f0_25; PyFloat.f0_75]]).

(** A forecast reply for one day. *)
Definition forecast : pyval :=
  PDict [("latitude", PFloat PyFloat.f28_40);
         ("longitude", PFloat PyFloat.f77_31);
         ("hourly", PDict [("time", PList [PStr "2026-11-04T00:00"]);
                           ("temperature_2m", PList [PFloat f24]);
                           ("relative_humidity_2m", PList [PInt 40]);
                           ("precipitation_probability", PList [PInt 10])]);
         ("daily", PDict [("time", PList [PStr "2026-11-04"]);
                          ("temperature_2m_max", PList [PFloat f31_5]);
                          ("temperature_2m_min", PList [PFloat f24]);
                          ("windspeed_10m_max", PList [PFloat f12_5])])].

(** A forecast reply whose daily arrays are there but hold no day. *)
Definition forecast_no_day : pyval :=
  PDict [("hourly", PDict [("time", PList []);
                           ("precipitation_probability", PList [])]);
         ("daily", PDict [("time", PList []);
                          ("temperature_2m_max", PList []);
                          ("temperature_2m_min", PList []);
                          ("windspeed_10m_max", PList [])])].

(** An error body, as the API sends it with a 400. *)
Definition error_body : pyval :=
  PDict [("error", PBool true); ("reason", PStr "Parameter out of range")].

(** An archive reply for one day with the given rainfall. *)
Definition archive (rain : pyval) : pyval :=
  PDict [("daily", PDict [("time", PList [PStr "2021-11-05"]);
                          ("precipitation_sum", PList [rain])])].

Definition tomorrow : date := MkDate 2026 11 4.
Definition session : Session := default_session tomorrow.

Definition show_float (x : spec_float) : string := "<float>".
Definition show_fixed (digits : nat) (x : spec_float) : string := "<float>".
Definition show_value (v : pyval) : string := "<value>".
Definition show_date (fmt : string) (d : date) : string := Datetime.isoformat d.


(** A network that answers every request the same way. *)
Definition always (r : result Response) (n : nat) (url : string) : result Response := r.
Definition unreachable : result Response :=
  Raise (MkExn ConnectionError "Max retries exceeded").

Definition no_match (n : nat) (query : string) : result (option Location) := Ok None.

Definition chart_hourly (hourly : pyval) (d : date) (t : time) : result unit := Ok tt.
Definition chart_history (rows : list HistoryRow) (d : date) : result unit := Ok tt.

(** What the widgets return when the user has touched nothing. *)
Definition untouched : Widgets :=
  MkWidgets "Faridabad, India" None tomorrow (MkTime 18 0) Picnic 500.

End Sample.

(** [st.session_state] before and after the initialization block: each of
    the six keys is there or not. *)
Module SessionState.

Record t : Type := Mk {
  latitude : option spec_float;
  longitude : option spec_float;
  event_date : option date;
  event_time : option time;
  event_type : option EventType;
  crowd_size : option Z
}.

Definition empty : t := Mk None None None None None None.

(** [if key not in st.session_state: st.session_state.key = d] *)
Definition seed {A} (x : option A) (d : A) : option A :=
  match x with Some _ => x | None => Some d end.

(** The six guarded assignments, in the order of the scripts. The default
    of the date is [date.today() + timedelta(days=1)], computed only when
    the key is missing; when it overflows, the two coordinates have been
    seeded and the rest has not. *)
Definition initialize (today : date) (s : t) : t * result unit :=
  let lat := seed (latitude s) PyFloat.f28_40 in
  let lon := seed (longitude s) PyFloat.f77_31 in
  let rest (d : option date) : t :=
    Mk lat lon d (seed (event_time s) (MkTime 18 0)) (seed (event_type s) Picnic)
       (seed (crowd_size s) 500) in
  match event_date s with
  | Some _ => (rest (event_date s), Ok tt)
  | None =>
      match Datetime.sub_days today (-1) with
      | Ok tomorrow => (rest (Some tomorrow), Ok tt)
      | Raise e => (Mk lat lon None (event_time s) (event_type s) (crowd_size s), Raise e)
      end
  end.

(** The session the views read, once every key is there. *)
Definition complete (s : t) : option Session :=
  match latitude s, longitude s, event_date s, event_time s, event_type s, crowd_size s with
  | Some lat, Some lon, Some d, Some t, Some ty, Some n => Some (MkSession lat lon d t ty n)
  | _, _, _, _, _, _ => None
  end.

End SessionState.

Section World.

(** ** The outside world

    The libraries and services the scripts call but do not define. The
    oracles of the services take the number of actions performed so far, so
    that two requests for one URL may be answered differently. *)

Variable Figure : Type.
Variable float_repr : spec_float -> string.
Variable format_f : nat -> spec_float -> string.
Variable py_str : pyval -> string.
Variable strftime : string -> date -> string.
Variable read_pickle : string -> result Classifier.
Variable http_get : nat -> string -> result Response.
Variable nominatim : nat -> string -> result (option Location).
Variable hourly_chart : pyval -> date -> time -> result Figure.
Variable history_chart : list HistoryRow -> date -> result Figure.

Inductive Element : Type :=
  | StTitle (s : string)
  | StHeader (s : string)
  | StSubheader (s : string)
  | StMarkdown (s : string)
  | StError (s : string)
  | StWarning (s : string)
  | StInfo (s : string)
  | StSuccess (s : string)
  | StMetric (label value : string)
  | StFolium (lat lon : spec_float)
  | StPyplot (fig : Figure).

(** Everything a run does that can be observed from outside. *)
Inductive Event : Type :=
  | Render (el : Element)
  | OpenPickle (path : string)
  | HttpGet (url : string)
  | Geocode (query : string)
  | CallPredict (df : DataFrame)
  | CallPredictProba (df : DataFrame).

(** An entry of a Streamlit cache: the value, the elements the function
    rendered (replayed on a hit) and the time it was stored. *)
Record CacheEntry (V : Type) : Type := MkEntry {
  cached_value : V;
  cached_elements : list Element;
  stored_at : Z
}.
Arguments MkEntry {V}.
Arguments cached_value {V}.
Arguments cached_elements {V}.
Arguments stored_at {V}.

Abbreviation Key := (spec_float * spec_float * date)%type.

Record State : Type := MkState {
  session : Session;
  now : Z;
  model_cache : gmap string (CacheEntry (option Classifier));
  forecast_cache : gmap Key (CacheEntry pyval);
  history_cache : gmap Key (CacheEntry (list HistoryRow));
  trace : list Event
}.

Definition set_session (x : Session) (s : State) : State :=
  MkState x (now s) (model_cache s) (forecast_cache s) (history_cache s) (trace s).
Definition set_now (t : Z) (s : State) : State :=
  MkState (session s) t (model_cache s) (forecast_cache s) (history_cache s) (trace s).
Definition set_model_cache (c : gmap string (CacheEntry (option Classifier))) (s : State) : State :=
  MkState (session s) (now s) c (forecast_cache s) (history_cache s) (trace s).
Definition set_forecast_cache (c : gmap Key (CacheEntry pyval)) (s : State) : State :=
  MkState (session s) (now s) (model_cache s) c (history_cache s) (trace s).
Definition set_history_cache (c : gmap Key (CacheEntry (list HistoryRow))) (s : State) : State :=
  MkState (session s) (now s) (model_cache s) (forecast_cache s) c (trace s).
Definition set_trace (t : list Event) (s : State) : State :=
  MkState (session s) (now s) (model_cache s) (forecast_cache s) (history_cache s) t.

(** ** The monad of a script run: state, and exceptions *)

Definition M (A : Type) : Type := State -> State * result A.

Definition ret {A} (a : A) : M A := fun s => (s, Ok a).

Definition bind {A B} (m : M A) (k : A -> M B) : M B :=
  fun s => match m s with
           | (s', Ok a) => k a s'
           | (s', Raise e) => (s', Raise e)
           end.

Notation "'let*' x ':=' m 'in' k" := (bind m (fun x => k))
  (at level 10, x name, m at level 100, k at level 200).
Notation "'do' m 'then' k" := (bind m (fun _ => k))
  (at level 10, m at level 100, k at level 200).

Definition lift {A} (r : result A) : M A := fun s => (s, r).

(** [try: body / except Exception as e: handler e] *)
Definition try_except {A} (body : M A) (handler : exn -> M A) : M A :=
  fun s => match body s with
           | (s', Raise e) => handler e s'
           | r => r
           end.

Definition emit (ev : Event) : M unit :=
  fun s => (set_trace (trace s ++ [ev]) s, Ok tt).

Definition get_session : M Session := fun s => (s, Ok (session s)).
Definition put_session (x : Session) : M unit := fun s => (set_session x s, Ok tt).

Definition st (el : Element) : M unit := emit (Render el).

Fixpoint for_each {A B} (l : list A) (acc : B) (body : B -> A -> M B) : M B :=
  match l with
  | [] => ret acc
  | x :: l' => let* acc' := body acc x in for_each l' acc' body
  end.

(** [r[0]] on a sequence a library returned *)
Definition item {A} (l : list A) (i : nat) : result A :=
  match nth_error l i with
  | Some x => Ok x
  | None => Raise (MkExn IndexError "index out of bounds")
  end.

Definition rendered_of (ev : Event) : option Element :=
  match ev with Render el => Some el | _ => None end.

(** ** Streamlit's caches

    [@st.cache_data(ttl=...)] and [@st.cache_resource]: a hit returns the
    stored value and replays the stored elements without running the
    function; a miss, or an entry whose time to live has passed, runs the
    function and stores what it returned and rendered. An exception is not
    stored. *)

Definition live (ttl : option Z) (stored t : Z) : bool :=
  match ttl with
  | Some d => (t <? stored + d)%Z
  | None => true
  end.

Definition cached {K V} `{Countable K} (ttl : option Z)
    (get : State -> gmap K (CacheEntry V))
    (set : gmap K (CacheEntry V) -> State -> State)
    (key : K) (f : M V) : M V :=
  fun s =>
    let miss :=
      match f s with
      | (s', Ok v) =>
          let els := omap rendered_of (drop (length (trace s)) (trace s')) in
          (set (<[key := MkEntry v els (now s')]> (get s')) s', Ok v)
      | (s', Raise e) => (s', Raise e)
      end in
    match get s !! key with
    | Some e =>
        if live ttl (stored_at e) (now s)
        then (set_trace (trace s ++ map Render (cached_elements e)) s, Ok (cached_value e))
        else miss
    | None => miss
    end.

Definition hours (n : Z) : Z := n * 3600.

(** ** MODEL & API FUNCTIONS *)

Definition open_and_load (model_path : string) : M Classifier :=
  do emit (OpenPickle model_path) then lift (read_pickle model_path).

Definition load_model (model_path : string) : M (option Classifier) :=
  try_except
    (let* model := open_and_load model_path in ret (Some model))
    (fun e =>
       if decide (exn_cls e = FileNotFoundError)
       then do st (StError ("Error: The model file '" ++ model_path
                            ++ "' was not found. Make sure it's in the same directory."))
            then ret None
       else do st (StError ("Error loading the model: " ++ exn_str e))
            then ret None).

Definition requests_get (url : string) : M Response :=
  fun s =>
    let n := length (trace s) in
    (set_trace (trace s ++ [HttpGet url]) s, http_get n url).

Definition forecast_url (lat lon : spec_float) (d : date) : string :=
  "https://api.open-meteo.com/v1/forecast?latitude=" ++ float_repr lat
  ++ "&longitude=" ++ float_repr lon
  ++ "&start_date=" ++ Datetime.isoformat d
  ++ "&end_date=" ++ Datetime.isoformat d
  ++ "&hourly=temperature_2m,relative_humidity_2m,precipitation_probability"
  ++ "&daily=temperature_2m_max,temperature_2m_min,windspeed_10m_max".

Definition get_forecast_data (lat lon : spec_float) (d : date) : M pyval :=
  let url := forecast_url lat lon d in
  try_except
    (let* res := requests_get url in
     do lift (raise_for_status res) then
     lift (json res))
    (fun e =>
       do st (StError ("Could not fetch forecast data for the model: " ++ exn_str e))
       then ret PNone).

Definition archive_url (lat lon : spec_float) (d : date) : string :=
  "https://archive-api.open-meteo.com/v1/archive?latitude=" ++ float_repr lat
  ++ "&longitude=" ++ float_repr lon
  ++ "&start_date=" ++ Datetime.isoformat d
  ++ "&end_date=" ++ Datetime.isoformat d
  ++ "&daily=precipitation_sum".

(** One round of the loop over [range(5, 0, -1)]. The offset date is
    computed before the [try]. *)
Definition history_step (lat lon : spec_float) (d : date)
    (history_data : list HistoryRow) (i : Z) : M (list HistoryRow) :=
  let* past_date := lift (Datetime.sub_days d (i * 365)) in
  let url := archive_url lat lon past_date in
  try_except
    (let* resp := requests_get url in
     let* res := lift (json resp) in
     let* daily := lift (Py.getitem res "daily") in
     let* sums := lift (Py.getitem daily "precipitation_sum") in
     let* rain := lift (Py.first sums) in
     ret (history_data ++ [MkRow (year past_date) rain])%list)
    (fun _ => ret history_data).

Definition get_historical_daily_rain (lat lon : spec_float) (d : date)
    : M (list HistoryRow) :=
  for_each [5; 4; 3; 2; 1] [] (history_step lat lon d).

(** The decorated functions, as the scripts call them. *)
Definition load_model_cached (model_path : string) : M (option Classifier) :=
  cached None model_cache set_model_cache model_path (load_model model_path).

Definition get_forecast_data_cached (lat lon : spec_float) (d : date) : M pyval :=
  cached (Some (hours 1)) forecast_cache set_forecast_cache (lat, lon, d)
         (get_forecast_data lat lon d).

Definition get_historical_daily_rain_cached (lat lon : spec_float) (d : date)
    : M (list HistoryRow) :=
  cached (Some (hours 6)) history_cache set_history_cache (lat, lon, d)
         (get_historical_daily_rain lat lon d).

(** ** UI LAYOUT *)

(** The geocoding block of the Event Input view. *)
Definition geocode (query : string) : M (option Location) :=
  fun s =>
    let n := length (trace s) in
    (set_trace (trace s ++ [Geocode query]) s, nominatim n query).

Definition geocoding_block (name : string) : M unit :=
  try_except
    (let* location := geocode name in
     match location with
     | Some loc =>
         let* ss := get_session in
         do put_session (MkSession (loc_latitude loc) (longitude ss) (event_date ss)
                                   (event_time ss) (event_type ss) (crowd_size ss)) then
         let* ss := get_session in
         do put_session (MkSession (latitude ss) (loc_longitude loc) (event_date ss)
                                   (event_time ss) (event_type ss) (crowd_size ss)) then
         st (StSuccess ("Found '" ++ address loc ++ "'. Map centered."))
     | None => st (StWarning "Location not found. Please try another search.")
     end)
    (fun e => st (StError ("Geocoding service error: " ++ exn_str e))).

Definition event_input_view (v : Variant) (w : Widgets) : M unit :=
  do st (StHeader (match v with
                   | RadioNav => "🎭 Plan Your Event"
                   | TabNav => "Plan Your Event"
                   end)) then
  do geocoding_block (location_name w) then
  do st (StInfo "Click on the map to fine-tune the precise spot.") then
  let* ss := get_session in
  do st (StFolium (latitude ss) (longitude ss)) then
  do match last_clicked w with
     | Some (lat, lng) =>
         put_session (MkSession lat lng (event_date ss) (event_time ss)
                                (event_type ss) (crowd_size ss))
     | None => ret tt
     end then
  let* ss := get_session in
  do st (StSuccess ("📍 Location set: Latitude=" ++ format_f 4 (latitude ss)
                    ++ ", Longitude=" ++ format_f 4 (longitude ss))) then
  do st (StMarkdown "---") then
  put_session (MkSession (latitude ss) (longitude ss) (date_input w) (time_input w)
                         (selectbox w) (slider w)).

(** The one-row table both views hand to the classifier. *)
Definition input_df (daily_data : pyval) : M DataFrame :=
  let* tmax_col := lift (Py.getitem daily_data "temperature_2m_max") in
  let* tmax := lift (Py.first tmax_col) in
  let* tmin_col := lift (Py.getitem daily_data "temperature_2m_min") in
  let* tmin := lift (Py.first tmin_col) in
  let* wind_col := lift (Py.getitem daily_data "windspeed_10m_max") in
  let* wind := lift (Py.first wind_col) in
  ret [("temperature_2m_max", [tmax]);
       ("temperature_2m_min", [tmin]);
       ("windspeed_10m_max", [wind])].

(** [model.predict(input_df)[0]] *)
Definition model_predict (model : Classifier) (df : DataFrame) : M Z :=
  do emit (CallPredict df) then
  let* classes := lift (predict model df) in
  lift (item classes 0).

(** [model.predict_proba(input_df)[0][1]] *)
Definition model_predict_proba (model : Classifier) (df : DataFrame) : M spec_float :=
  do emit (CallPredictProba df) then
  let* rows := lift (predict_proba model df) in
  let* row := lift (item rows 0) in
  lift (item row 1).

Definition percent (digits : nat) (p : spec_float) : string :=
  format_f digits (PyFloat.mul p PyFloat.f100).

Definition dashboard_fallback (v : Variant) : M unit :=
  st (StWarning
        (match v with
         | RadioNav => "Could not load model or forecast data for the dashboard."
         | TabNav => "Could not load model or forecast data for the dashboard. Please check inputs on the 'Event Input' tab."
         end)).

Definition dashboard_body (v : Variant) (model : Classifier) (forecast_data : pyval)
    : M unit :=
  let* ss := get_session in
  let* daily_data := lift (Py.getitem forecast_data "daily") in
  let* df := input_df daily_data in
  let* prediction_proba := model_predict_proba model df in
  do st (StMetric (match v with
                   | RadioNav => "Rain Probability"
                   | TabNav => "Rain Probability (Model)"
                   end)
                  (percent 1 prediction_proba ++ "%")) then
  let* tmax_col := lift (Py.getitem daily_data "temperature_2m_max") in
  let* tmax := lift (Py.first tmax_col) in
  do st (StMetric "Max Temperature" (py_str tmax ++ "°C")) then
  let* wind_col := lift (Py.getitem daily_data "windspeed_10m_max") in
  let* wind := lift (Py.first wind_col) in
  do st (StMetric "Max Wind Speed" (py_str wind ++ " km/h")) then
  do st (StMarkdown "---") then
  do st (StSubheader (match v with
                      | RadioNav => "Hourly Forecast"
                      | TabNav => "Hourly Forecast from API"
                      end)) then
  let* hourly := lift (Py.getitem forecast_data "hourly") in
  let* fig := lift (hourly_chart hourly (event_date ss) (event_time ss)) in
  st (StPyplot fig).

Definition forecast_dashboard_view (v : Variant) (model : option Classifier)
    (forecast_data : pyval) : M unit :=
  let* ss := get_session in
  do st (StHeader ("Forecast for " ++ Datetime.isoformat (event_date ss))) then
  match model with
  | Some clf =>
      if Py.truthy forecast_data then
        let* has_daily := lift (Py.contains "daily" forecast_data) in
        if has_daily : bool then dashboard_body v clf forecast_data
        else dashboard_fallback v
      else dashboard_fallback v
  | None => dashboard_fallback v
  end.

Definition history_view (v : Variant) : M unit :=
  let* ss := get_session in
  do st (StHeader ((match v with
                    | RadioNav => "📊Rainfall History for "
                    | TabNav => "📊 Rainfall History for "
                    end) ++ strftime "%B %d" (event_date ss))) then
  let* history_df :=
    get_historical_daily_rain_cached (latitude ss) (longitude ss) (event_date ss) in
  match history_df with
  | _ :: _ =>
      let* fig2 := lift (history_chart history_df (event_date ss)) in
      st (StPyplot fig2)
  | [] => st (StWarning "Could not load historical data from the API.")
  end.

(** The risk tier and the advice that goes with it. *)
Record Advice : Type := MkAdvice {
  risk_level : string;
  suggestion : string;
  shown : list Element
}.

Definition risk_advice (v : Variant) (ev : EventType) (prediction : Z)
    (prediction_proba : spec_float) : Advice :=
  let for_your :=
    match v with
    | RadioNav => ""
    | TabNav => " for your " ++ event_type_str ev
    end in
  let confidence (pct : string) :=
    match v with
    | RadioNav => pct ++ "% confidence"
    | TabNav => "**" ++ pct ++ "% confidence**"
    end in
  if (prediction =? 1)%Z && PyFloat.gt prediction_proba PyFloat.f0_6 then
    let risk_level := "High Risk of Rain 🌧️" in
    let suggestion :=
      "⚠️ The model predicts rain with " ++ confidence (percent 0 prediction_proba)
      ++ ". Activating an indoor backup plan is strongly recommended"
      ++ for_your ++ "." in
    MkAdvice risk_level suggestion [StError risk_level; StWarning suggestion]
  else if (prediction =? 1)%Z then
    let risk_level := "Moderate Risk of Showers 🌦️" in
    let suggestion :=
      "The model predicts rain with " ++ confidence (percent 0 prediction_proba)
      ++ ". Having tents or covered areas on standby is a wise precaution"
      ++ for_your ++ "." in
    MkAdvice risk_level suggestion [StWarning risk_level; StInfo suggestion]
  else
    let risk_level := "Low Risk of Rain ☀️" in
    let not_rain :=
      format_f 0 (PyFloat.sub PyFloat.f100 (PyFloat.mul prediction_proba PyFloat.f100))
      ++ "% confident it will NOT rain" in
    let suggestion :=
      "✅ The model is "
      ++ (match v with RadioNav => not_rain | TabNav => "**" ++ not_rain ++ "**" end)
      ++ ". Conditions look favorable" ++ for_your ++ "." in
    MkAdvice risk_level suggestion [StSuccess risk_level; StInfo suggestion].

Definition suggestions_fallback (v : Variant) : M unit :=
  st (StError
        (match v with
         | RadioNav => "The model (`daily_rain_classifier.pkl`) or forecast data is unavailable."
         | TabNav => "The model (`daily_rain_classifier.pkl`) or forecast data is unavailable. Please check inputs on the 'Event Input' tab."
         end)).

Definition suggestions_body (v : Variant) (model : Classifier) (forecast_data : pyval)
    : M unit :=
  let* ss := get_session in
  let* daily_data := lift (Py.getitem forecast_data "daily") in
  let* df := input_df daily_data in
  let* prediction := model_predict model df in
  let* prediction_proba := model_predict_proba model df in
  do st (StMetric "Model Prediction: Will it Rain?"
                  (if (prediction =? 1)%Z then "Yes" else "No")) then
  do st (StMetric "Chances of Rain" (percent 1 prediction_proba ++ "%")) then
  do match v with RadioNav => ret tt | TabNav => st (StMarkdown "---") end then
  for_each (shown (risk_advice v (event_type ss) prediction prediction_proba)) tt
           (fun _ el => st el).

Definition suggestions_view (v : Variant) (model : option Classifier)
    (forecast_data : pyval) : M unit :=
  do st (StHeader (match v with
                   | RadioNav => "Suggestions for Event"
                   | TabNav => "Suggestions for Your Event"
                   end)) then
  match model with
  | Some clf =>
      if Py.truthy forecast_data then
        let* has_daily := lift (Py.contains "daily" forecast_data) in
        if has_daily : bool then suggestions_body v clf forecast_data
        else suggestions_fallback v
      else suggestions_fallback v
  | None => suggestions_fallback v
  end.

(** What follows the loading of the model in a run. [app.py] renders the
    section the sidebar selects; [main_app.py] renders its four tabs one
    after the other. *)
Definition script_body (v : Variant) (section : Section_) (w : Widgets)
    (model : option Classifier) : M unit :=
  let shows (x : Section_) : bool :=
    match v, section, x with
    | TabNav, _, _ => true
    | RadioNav, EventInput, EventInput => true
    | RadioNav, ForecastDashboard, ForecastDashboard => true
    | RadioNav, History, History => true
    | RadioNav, Suggestions, Suggestions => true
    | RadioNav, _, _ => false
    end in
  do (if shows EventInput then event_input_view v w else ret tt) then
  let* ss := get_session in
  let* forecast_data :=
    get_forecast_data_cached (latitude ss) (longitude ss) (event_date ss) in
  do (if shows ForecastDashboard then forecast_dashboard_view v model forecast_data
      else ret tt) then
  do (if shows History then history_view v else ret tt) then
  if shows Suggestions then suggestions_view v model forecast_data else ret tt.

(** One run of the script, top to bottom (the page configuration and the
    style sheet apart). *)
Definition script (v : Variant) (section : Section_) (w : Widgets) : M unit :=
  do st (StTitle (match v with
                  | RadioNav => "🌦️ Will it Rain on My Parade?"
                  | TabNav => "🌦️ EventSky: Event - Weather Planner"
                  end)) then
  do st (StSubheader (match v with
                      | RadioNav => "Plan event in a smarter way on weather conditions."
                      | TabNav => "Plan your event with smarter weather insights."
                      end)) then
  let* model := load_model_cached "daily_rain_classifier.pkl" in
  script_body v section w model.

(** ** What the claims speak about *)

(** The events a computation adds to the trace when run from [s]. *)
Definition events {A} (m : M A) (s : State) : list Event :=
  drop (length (trace s)) (trace (m s).1).

Definition outcome {A} (m : M A) (s : State) : result A := (m s).2.

Definition is_http_get (ev : Event) : bool :=
  match ev with HttpGet _ => true | _ => false end.

Definition is_model_call (ev : Event) : bool :=
  match ev with CallPredict _ | CallPredictProba _ => true | _ => false end.

(** The number of network requests among some events. *)
Definition requests_issued (evs : list Event) : nat :=
  length (filter (fun ev => is_http_get ev = true) evs).

(** A prediction is computed when one of the classifier's methods is called. *)
Definition prediction_computed (evs : list Event) : bool := existsb is_model_call evs.

(** The first element of one of the daily arrays of a forecast payload. *)
Definition first_of (daily_data : pyval) (column : string) : option pyval :=
  match Py.getitem daily_data column with
  | Ok col => match Py.first col with Ok x => Some x | Raise _ => None end
  | Raise _ => None
  end.

(** The first daily record of a forecast payload, if it has one. *)
Definition daily_record (forecast_data : pyval) : option (pyval * pyval * pyval) :=
  match Py.getitem forecast_data "daily" with
  | Ok daily_data =>
      match first_of daily_data "temperature_2m_max",
            first_of daily_data "temperature_2m_min",
            first_of daily_data "windspeed_10m_max" with
      | Some tmax, Some tmin, Some wind => Some (tmax, tmin, wind)
      | _, _, _ => None
      end
  | Raise _ => None
  end.

(** The three-column, one-row table of a daily record. *)
Definition features (r : pyval * pyval * pyval) : DataFrame :=
  [("temperature_2m_max", [r.1.1]);
   ("temperature_2m_min", [r.1.2]);
   ("windspeed_10m_max", [r.2])].

Inductive Tier : Type := HighRisk | ModerateRisk | LowRisk.

(** The tier a risk headline names. *)
Definition tier_of (a : Advice) : option Tier :=
  if String.eqb (risk_level a) "High Risk of Rain 🌧️" then Some HighRisk
  else if String.eqb (risk_level a) "Moderate Risk of Showers 🌦️" then Some ModerateRisk
  else if String.eqb (risk_level a) "Low Risk of Rain ☀️" then Some LowRisk
  else None.


(** What one archive response contributes: [res['daily']['precipitation_sum'][0]]
    of its JSON, or the exception on the way there. *)
Definition rainfall_of (r : result Response) : result pyval :=
  match r with
  | Ok resp =>
      match json resp with
      | Ok res =>
          match Py.getitem res "daily" with
          | Ok daily =>
              match Py.getitem daily "precipitation_sum" with
              | Ok sums => Py.first sums
              | Raise e => Raise e
              end
          | Raise e => Raise e
          end
      | Raise e => Raise e
      end
  | Raise e => Raise e
  end.

Definition row_of (y : Z) (r : result pyval) : list HistoryRow :=
  match r with Ok rain => [MkRow y rain] | Raise _ => [] end.

(** [model and forecast_data and 'daily' in forecast_data] *)
Definition guard (model : option Classifier) (forecast_data : pyval) : result bool :=
  match model with
  | None => Ok false
  | Some _ => if Py.truthy forecast_data then Py.contains "daily" forecast_data else Ok false
  end.

(** What a reply to the forecast request amounts to inside the [try]. *)
Definition fetched (reply : result Response) : result pyval :=
  match reply with
  | Ok res =>
      match raise_for_status res with
      | Ok _ => json res
      | Raise e => Raise e
      end
  | Raise e => Raise e
  end.

(** When the entry of a key stops being served, if there is one. *)
Definition expires_at (s : State) (k : Key) : option Z :=
  match forecast_cache s !! k with
  | Some e => Some (stored_at e + hours 1)%Z
  | None => None
  end.

(** The date [i] times 365 days before [d], and the reply to the request
    for it: the requests go out from offset 5 down to offset 1. *)
Definition offset_date (d : date) (i : Z) : date :=
  Datetime.ord2ymd (Datetime.toordinal d - i * 365).

Definition reply_to (lat lon : spec_float) (d : date) (s : State) (i : Z)
    : result Response :=
  http_get (length (trace s) + Z.to_nat (5 - i))
           (archive_url lat lon (offset_date d i)).

Definition contribution (lat lon : spec_float) (d : date) (s : State) (i : Z)
    : list HistoryRow :=
  row_of (year (offset_date d i)) (rainfall_of (reply_to lat lon d s i)).

(** The dates for which the five subtractions stay inside the calendar. *)
Definition offsets_exist (d : date) : Prop :=
  Datetime.valid d /\ (5 * 365 < Datetime.toordinal d)%Z.

(** A computation is quiet when, from every state, it only appends events
    to the trace and none of them is a call of the classifier. *)
Definition quiet {A} (m : M A) : Prop :=
  forall s, exists evs,
    trace (m s).1 = (trace s ++ evs)%list /\ prediction_computed evs = false.

(** A state with empty caches and nothing done yet. *)
Definition initial_state (ss : Session) (t : Z) : State :=
  MkState ss t ∅ ∅ ∅ [].

(** ** More vocabulary *)

(** The calls of the classifier among some events, in order. *)
Definition model_calls (evs : list Event) : list Event :=
  filter (fun ev => is_model_call ev = true) evs.

Definition is_open_pickle (ev : Event) : bool :=
  match ev with OpenPickle _ => true | _ => false end.

(** The number of times the artifact is opened among some events. *)
Definition files_opened (evs : list Event) : nat :=
  length (filter (fun ev => is_open_pickle ev = true) evs).

(** A computation keeps a relation between states when every run relates
    the state it starts from to the state it ends in. *)
Definition keeps {A} (R : State -> State -> Prop) (m : M A) : Prop :=
  forall s, R s (m s).1.

(** What the views other than Event Input leave alone: the session, the
    clock and the forecast cache. *)
Definition same_inputs (s s' : State) : Prop :=
  session s' = session s /\ now s' = now s /\ forecast_cache s' = forecast_cache s.

(** The key of the forecast lookup of a session. *)
Definition forecast_key (ss : Session) : Key :=
  (latitude ss, longitude ss, event_date ss).

(** The coordinates the geocoding block leaves in the session. *)
Definition geocoded (ss : Session) (reply : result (option Location))
    : spec_float * spec_float :=
  match reply with
  | Ok (Some loc) => (loc_latitude loc, loc_longitude loc)
  | _ => (latitude ss, longitude ss)
  end.

(** The session the Event Input view leaves: a click on the map wins over
    the geocoded place, and the four widgets give the rest. *)
Definition entered (ss : Session) (reply : result (option Location)) (w : Widgets)
    : Session :=
  let found := geocoded ss reply in
  let final := match last_clicked w with Some c => c | None => found end in
  MkSession final.1 final.2 (date_input w) (time_input w) (selectbox w) (slider w).

(** ** Facts about floats and strings *)

Set Default Proof Using "Type".
Set Proof Using Clear Unused.









(** ** The suggestion logic *)


(** ** Running the views *)

Local Open Scope list_scope.
Local Open Scope Z_scope.

Lemma set_trace_nil (s : State) : set_trace (trace s ++ []) s = s.
Proof. destruct s; unfold set_trace; simpl. rewrite app_nil_r. reflexivity. Qed.

Ltac run_view :=
  cbv [forecast_dashboard_view suggestions_view dashboard_body suggestions_body
       dashboard_fallback suggestions_fallback input_df model_predict
       model_predict_proba geocoding_block geocode load_model open_and_load
       get_forecast_data requests_get
       bind lift ret st emit get_session put_session try_except for_each
       events outcome].

Ltac split_cases := repeat (case_match; simplify_eq; simpl).

Lemma dashboard_body_run (v : Variant) (clf : Classifier) (fd : pyval) (s : State) :
  exists evs r,
    dashboard_body v clf fd s = (set_trace (trace s ++ evs) s, r) /\
    ((daily_record fd = None /\ evs = [] /\ exists e, r = Raise e) \/
     (exists rec rest, daily_record fd = Some rec /\
        evs = CallPredictProba (features rec) :: rest /\
        prediction_computed rest = false)).
Proof.
  unfold daily_record, first_of, features. run_view.
  split_cases.
  all: rewrite <- ?app_assoc; simpl.
  all: first
    [ exists []; eexists; rewrite set_trace_nil; split; [reflexivity|]; left; eauto
    | eexists _, _; split; [reflexivity|]; right; eexists _, _;
      split; [reflexivity|]; split; reflexivity ].
Qed.

Lemma suggestions_body_run (v : Variant) (clf : Classifier) (fd : pyval) (s : State) :
  exists evs r,
    suggestions_body v clf fd s = (set_trace (trace s ++ evs) s, r) /\
    ((daily_record fd = None /\ evs = [] /\ exists e, r = Raise e) \/
     (exists rec rest, daily_record fd = Some rec /\
        evs = CallPredict (features rec) :: rest /\
        Forall (fun ev => is_model_call ev = true ->
                          ev = CallPredictProba (features rec)) rest)).
Proof.
  unfold daily_record, first_of, features. run_view. unfold risk_advice.
  split_cases.
  all: rewrite <- ?app_assoc; simpl.
  all: first
    [ exists []; eexists; rewrite set_trace_nil; split; [reflexivity|]; left; eauto
    | eexists _, _; split; [reflexivity|]; right; eexists _, _;
      split; [reflexivity|]; split; [reflexivity|];
      repeat constructor; simpl; congruence ].
Qed.

(** ** The calendar *)

Lemma month_day_bounds (d : date) :
  Datetime.valid d -> 1 <= Datetime.days_before_month (year d) (month d) + day d <= 365 + (if Datetime.is_leap (year d) then 1 else 0).
Proof.
  unfold Datetime.valid, Datetime.days_in_month, Datetime.days_before_month. destruct d as [y m dd]; simpl.
  intros (Hy & Hm & Hd).
  assert (m = 1 \/ m = 2 \/ m = 3 \/ m = 4 \/ m = 5 \/ m = 6 \/ m = 7 \/ m = 8 \/ m = 9 \/ m = 10 \/ m = 11 \/ m = 12) as Hc by lia.
  destruct (Datetime.is_leap y);
  repeat (destruct Hc as [-> | Hc]; [simpl in *; lia|]); subst; simpl in *; lia.
Qed.

Lemma days_before_year_mono a b : a <= b -> Datetime.days_before_year a <= Datetime.days_before_year b.
Proof. unfold Datetime.days_before_year. intros. Z.div_mod_to_equations; lia. Qed.

Lemma valid_toordinal_le d : Datetime.valid d -> 1 <= Datetime.toordinal d <= Datetime.MAXORDINAL.
Proof.
  intros H. pose proof (month_day_bounds d H) as Hb.
  destruct H as (Hy & _). unfold Datetime.toordinal, Datetime.ymd2ord, Datetime.MAXORDINAL, Datetime.MINYEAR, Datetime.MAXYEAR in *.
  pose proof (days_before_year_mono 1 (year d) ltac:(lia)) as H1.
  change (Datetime.days_before_year 1) with 0 in H1.
  destruct (Z.eq_dec (year d) 9999) as [E|E].
  - rewrite E in *. change (Datetime.is_leap 9999) with false in Hb.
    change (Datetime.days_before_year 9999) with 3651694 in *. lia.
  - pose proof (days_before_year_mono (year d) 9998 ltac:(lia)) as H2.
    change (Datetime.days_before_year 9998) with 3651329 in H2.
    destruct (Datetime.is_leap (year d)); lia.
Qed.

Lemma ord2ymd_year n :
  1 <= n -> Datetime.days_before_year (year (Datetime.ord2ymd n)) < n <= Datetime.days_before_year (year (Datetime.ord2ymd n) + 1).
Proof.
  intros Hn. unfold Datetime.ord2ymd, Datetime.DI400Y, Datetime.DI100Y, Datetime.DI4Y. cbv zeta.
  set (n0 := n - 1).
  set (n400 := n0 / 146097). set (r1 := n0 mod 146097).
  set (n100 := r1 / 36524). set (r2 := r1 mod 36524).
  set (n4 := r2 / 1461). set (r3 := r2 mod 1461).
  set (n1 := r3 / 365). set (r4 := r3 mod 365).
  assert (Hn0 : n = n0 + 1) by (unfold n0; lia).
  assert (H1 : n0 = 146097 * n400 + r1 /\ 0 <= r1 < 146097)
    by (unfold n400, r1; split; [apply Z.div_mod; lia | apply Z.mod_pos_bound; lia]).
  assert (H2 : r1 = 36524 * n100 + r2 /\ 0 <= r2 < 36524)
    by (unfold n100, r2; split; [apply Z.div_mod; lia | apply Z.mod_pos_bound; lia]).
  assert (H3 : r2 = 1461 * n4 + r3 /\ 0 <= r3 < 1461)
    by (unfold n4, r3; split; [apply Z.div_mod; lia | apply Z.mod_pos_bound; lia]).
  assert (H4 : r3 = 365 * n1 + r4 /\ 0 <= r4 < 365)
    by (unfold n1, r4; split; [apply Z.div_mod; lia | apply Z.mod_pos_bound; lia]).
  assert (0 <= n0) by lia.
  clearbody n0 n400 r1 n100 r2 n4 r3 n1 r4. subst n.
  unfold Datetime.days_before_year.
  destruct (n1 =? 4) eqn:E1; [apply Z.eqb_eq in E1|apply Z.eqb_neq in E1];
  (destruct (n100 =? 4) eqn:E2; [apply Z.eqb_eq in E2|apply Z.eqb_neq in E2]); simpl orb; cbv iota.
  4: match goal with |- context [if ?c then _ else _] => destruct c end.
  all: cbn [year].
  all: Z.div_mod_to_equations; lia.
Qed.

Lemma days_before_next_year y :
  Datetime.days_before_year (y + 1) = Datetime.days_before_year y + 365 + (if Datetime.is_leap y then 1 else 0).
Proof.
  unfold Datetime.days_before_year, Datetime.is_leap.
  destruct (y mod 4 =? 0) eqn:E4; [apply Z.eqb_eq in E4|apply Z.eqb_neq in E4];
  (destruct (y mod 100 =? 0) eqn:E100; [apply Z.eqb_eq in E100|apply Z.eqb_neq in E100]);
  (destruct (y mod 400 =? 0) eqn:E400; [apply Z.eqb_eq in E400|apply Z.eqb_neq in E400]);
  simpl; Z.div_mod_to_equations; lia.
Qed.

Lemma days_before_year_step a b :
  a <= b -> 365 * (b - a) <= Datetime.days_before_year b - Datetime.days_before_year a.
Proof. unfold Datetime.days_before_year. intros. Z.div_mod_to_equations; lia. Qed.

Lemma days_before_year_span a k :
  0 <= k <= 5 -> Datetime.days_before_year (a + k) - Datetime.days_before_year a <= 365 * k + 2.
Proof. unfold Datetime.days_before_year. intros. Z.div_mod_to_equations; lia. Qed.

Lemma offset_year_drift (d : date) (i : Z) :
  Datetime.valid d -> 5 * 365 < Datetime.toordinal d -> 1 <= i <= 5 ->
  year (Datetime.ord2ymd (Datetime.toordinal d - i * 365)) = year d - i \/
  year (Datetime.ord2ymd (Datetime.toordinal d - i * 365)) = year d - i + 1.
Proof.
  intros Hv Hd Hi.
  pose proof (month_day_bounds d Hv) as Hb.
  pose proof (ord2ymd_year (Datetime.toordinal d - i * 365) ltac:(lia)) as Hy.
  pose proof (days_before_next_year (year d)) as Hnext.
  set (y' := year (Datetime.ord2ymd (Datetime.toordinal d - i * 365))) in *.
  assert (HT : Datetime.days_before_year (year d) < Datetime.toordinal d <= Datetime.days_before_year (year d + 1)).
  { unfold Datetime.toordinal, Datetime.ymd2ord. rewrite Hnext. destruct (Datetime.is_leap (year d)); lia. }
  clearbody y'. clear Hnext Hb.
  set (T := Datetime.toordinal d) in *. clearbody T.
  assert (year d - i <= y').
  { destruct (Z_le_gt_dec (year d - i) y') as [|Hlt]; [assumption|exfalso].
    pose proof (days_before_year_mono (y' + 1) (year d - i) ltac:(lia)).
    pose proof (days_before_year_step (year d - i) (year d) ltac:(lia)).
    lia. }
  assert (y' <= year d - i + 1).
  { destruct (Z_le_gt_dec y' (year d - i + 1)) as [|Hgt]; [assumption|exfalso].
    pose proof (days_before_year_mono (year d - i + 2) y' ltac:(lia)).
    pose proof (days_before_year_step (year d - i + 1) (year d - i + 2) ltac:(lia)).
    pose proof (days_before_year_span (year d - i + 1) i ltac:(lia)) as Hs.
    replace (year d - i + 1 + i) with (year d + 1) in Hs by lia.
    lia. }
  lia.
Qed.

Lemma forecast_dashboard_view_run (v : Variant) (model : option Classifier)
    (fd : pyval) (s : State) :
  exists hd evs r,
    forecast_dashboard_view v model fd s
      = (set_trace (trace s ++ Render (StHeader hd) :: evs) s, r) /\
    match guard model fd with
    | Ok false => r = Ok tt /\ exists msg, evs = [Render (StWarning msg)]
    | Raise e => r = Raise e /\ evs = []
    | Ok true =>
        (daily_record fd = None /\ evs = [] /\ exists e, r = Raise e) \/
        (exists rec rest, daily_record fd = Some rec /\
           evs = CallPredictProba (features rec) :: rest /\
           prediction_computed rest = false)
    end.
Proof.
  unfold forecast_dashboard_view, guard.
  destruct model as [clf|]; [destruct (Py.truthy fd); [destruct (Py.contains "daily" fd) as [[|]|e]|]|].
  2-5: cbv [bind lift ret st emit get_session dashboard_fallback]; simpl;
       rewrite <- ?app_assoc; simpl; eexists _, _, _; split; [reflexivity|]; eauto.
  destruct (dashboard_body_run v clf fd (set_trace (trace s ++ [Render (StHeader
     ("Forecast for " ++ Datetime.isoformat (event_date (session s)))%string)]) s))
    as (evs & r & Hrun & Hcases).
  cbv [bind lift ret st emit get_session]; simpl. 
  change (set_trace (trace s ++ [?x]) s) with (set_trace (trace s ++ [x]) s) in Hrun.
  unfold set_trace in Hrun |- *. simpl in Hrun. rewrite Hrun.
  rewrite <- app_assoc. simpl. eexists _, _, _; split; [reflexivity|]. exact Hcases.
Qed.

Lemma suggestions_view_run (v : Variant) (model : option Classifier)
    (fd : pyval) (s : State) :
  exists hd evs r,
    suggestions_view v model fd s
      = (set_trace (trace s ++ Render (StHeader hd) :: evs) s, r) /\
    match guard model fd with
    | Ok false => r = Ok tt /\ exists msg, evs = [Render (StError msg)]
    | Raise e => r = Raise e /\ evs = []
    | Ok true =>
        (daily_record fd = None /\ evs = [] /\ exists e, r = Raise e) \/
        (exists rec rest, daily_record fd = Some rec /\
           evs = CallPredict (features rec) :: rest /\
           Forall (fun ev => is_model_call ev = true ->
                             ev = CallPredictProba (features rec)) rest)
    end.
Proof.
  unfold suggestions_view, guard.
  destruct model as [clf|]; [destruct (Py.truthy fd); [destruct (Py.contains "daily" fd) as [[|]|e]|]|].
  2-5: cbv [bind lift ret st emit get_session suggestions_fallback]; simpl;
       rewrite <- ?app_assoc; simpl; eexists _, _, _; split; [reflexivity|]; eauto.
  match goal with
  | |- context [st (StHeader ?h)] =>
      destruct (suggestions_body_run v clf fd (set_trace (trace s ++ [Render (StHeader h)]) s))
        as (evs & r & Hrun & Hcases)
  end.
  cbv [bind lift ret st emit get_session]; simpl.
  unfold set_trace in Hrun |- *. simpl in Hrun. rewrite Hrun.
  rewrite <- app_assoc. simpl. eexists _, _, _; split; [reflexivity|]. exact Hcases.
Qed.

(** The events and the outcome of a run, read off its final state. *)
Lemma run_events {A} (m : M A) (s : State) (evs : list Event) (r : result A) :
  m s = (set_trace (trace s ++ evs) s, r) -> events m s = evs /\ outcome m s = r.
Proof.
  intros H. unfold events, outcome. rewrite H. simpl. split; [apply drop_app_length | reflexivity].
Qed.


(** C2, as amended. A view calls the classifier only when the model is
    there, the payload is truthy, it contains the key [daily] and has a
    first daily record; with no model, no payload, or a JSON object without
    the key [daily], each view renders its header and its fallback message
    and returns normally, without indexing anything; and with no first
    daily record no prediction is computed. *)
Theorem prediction_behind_guard (v : Variant) (model : option Classifier)
    (fd : pyval) (s : State) :
  let dash := forecast_dashboard_view v model fd in
  let sugg := suggestions_view v model fd in
  (prediction_computed (events dash s) = true \/
   prediction_computed (events sugg s) = true ->
     is_Some model /\ Py.truthy fd = true /\ Py.contains "daily" fd = Ok true /\
     exists r, daily_record fd = Some r) /\
  (model = None \/ fd = PNone \/
   (exists d, fd = PDict d /\ Py.lookup "daily" d = None) ->
     (outcome dash s = Ok tt /\
      exists hd msg, events dash s = [Render (StHeader hd); Render (StWarning msg)]) /\
     (outcome sugg s = Ok tt /\
      exists hd msg, events sugg s = [Render (StHeader hd); Render (StError msg)])) /\
  (daily_record fd = None ->
     prediction_computed (events dash s) = false /\
     prediction_computed (events sugg s) = false).
Proof.
  cbv zeta.
  destruct (forecast_dashboard_view_run v model fd s) as (hd & evs & r & Hd & Hdc).
  destruct (suggestions_view_run v model fd s) as (hs & evs' & r' & Hs & Hsc).
  apply run_events in Hd as [-> ->]. apply run_events in Hs as [-> ->].
  split; [|split].
  - unfold guard in *.
    destruct model as [clf|]; [destruct (Py.truthy fd); [destruct (Py.contains "daily" fd) as [[|]|e]|]|].
    + destruct Hdc as [(Hn & -> & _) | (rec & rest & Hrec & -> & Hrest)];
      destruct Hsc as [(Hn' & -> & _) | (rec' & rest' & Hrec' & -> & Hrest')];
      try congruence; simpl.
      * intuition discriminate.
      * intros _. repeat split; eauto.
    + destruct Hdc as (_ & [msg ->]), Hsc as (_ & [msg' ->]). simpl. intuition discriminate.
    + destruct Hdc as (_ & ->), Hsc as (_ & ->). simpl. intuition discriminate.
    + destruct Hdc as (_ & [msg ->]), Hsc as (_ & [msg' ->]). simpl. intuition discriminate.
    + destruct Hdc as (_ & [msg ->]), Hsc as (_ & [msg' ->]). simpl. intuition discriminate.
  - intros H.
    assert (Hg : guard model fd = Ok false).
    { unfold guard. destruct H as [-> | [-> | (d & -> & Hd)]]; [reflexivity| |].
      - destruct model; reflexivity.
      - destruct model; [|reflexivity]. simpl. rewrite Hd. destruct d; reflexivity. }
    rewrite Hg in Hdc, Hsc.
    destruct Hdc as (-> & [msg ->]), Hsc as (-> & [msg' ->]). eauto 8.
  - intros Hnone.
    destruct (guard model fd) as [[|]|e].
    + destruct Hdc as [(_ & -> & _) | (rec & _ & Hrec & _)]; [|congruence].
      destruct Hsc as [(_ & -> & _) | (rec & _ & Hrec & _)]; [|congruence].
      split; reflexivity.
    + destruct Hdc as (_ & [msg ->]), Hsc as (_ & [msg' ->]). split; reflexivity.
    + destruct Hdc as (_ & ->), Hsc as (_ & ->). split; reflexivity.
Qed.

(** ** Runs that never reach the classifier *)

Lemma prediction_computed_app (l1 l2 : list Event) :
  prediction_computed (l1 ++ l2) = prediction_computed l1 || prediction_computed l2.
Proof. apply existsb_app. Qed.

Lemma quiet_ret {A} (a : A) : quiet (ret a).
Proof. intros s. exists []. simpl. rewrite app_nil_r. auto. Qed.

Lemma quiet_lift {A} (r : result A) : quiet (lift r).
Proof. intros s. exists []. simpl. rewrite app_nil_r. auto. Qed.

Lemma quiet_get_session : quiet get_session.
Proof. intros s. exists []. simpl. rewrite app_nil_r. auto. Qed.

Lemma quiet_put_session (x : Session) : quiet (put_session x).
Proof. intros s. exists []. simpl. rewrite app_nil_r. auto. Qed.

Lemma quiet_emit (ev : Event) : is_model_call ev = false -> quiet (emit ev).
Proof.
  intros H s. exists [ev]. simpl. split; [reflexivity|].
  unfold prediction_computed. simpl. rewrite H. reflexivity.
Qed.

Lemma quiet_st (el : Element) : quiet (st el).
Proof. apply quiet_emit. reflexivity. Qed.

Lemma quiet_requests_get (url : string) : quiet (requests_get url).
Proof. intros s. exists [HttpGet url]. simpl. auto. Qed.

Lemma quiet_geocode (query : string) : quiet (geocode query).
Proof. intros s. exists [Geocode query]. simpl. auto. Qed.

Lemma quiet_bind {A B} (m : M A) (k : A -> M B) :
  quiet m -> (forall a, quiet (k a)) -> quiet (bind m k).
Proof.
  intros Hm Hk s. unfold bind.
  destruct (Hm s) as (evs & Ht & Hq).
  destruct (m s) as [s' [a|e]]; simpl in *.
  - destruct (Hk a s') as (evs' & Ht' & Hq').
    exists (evs ++ evs'). rewrite Ht', Ht, app_assoc, prediction_computed_app, Hq, Hq'. auto.
  - exists evs. auto.
Qed.

Lemma quiet_try_except {A} (body : M A) (handler : exn -> M A) :
  quiet body -> (forall e, quiet (handler e)) -> quiet (try_except body handler).
Proof.
  intros Hm Hk s. unfold try_except.
  destruct (Hm s) as (evs & Ht & Hq).
  destruct (body s) as [s' [a|e]]; simpl in *.
  - exists evs. auto.
  - destruct (Hk e s') as (evs' & Ht' & Hq').
    exists (evs ++ evs'). rewrite Ht', Ht, app_assoc, prediction_computed_app, Hq, Hq'. auto.
Qed.

Lemma quiet_for_each {A B} (l : list A) (acc : B) (body : B -> A -> M B) :
  (forall acc x, quiet (body acc x)) -> quiet (for_each l acc body).
Proof.
  intros Hb. revert acc. induction l as [|x l IH]; intros acc; simpl.
  - apply quiet_ret.
  - apply quiet_bind; [apply Hb | intros acc'; apply IH].
Qed.

Lemma prediction_computed_rendered (els : list Element) :
  prediction_computed (map Render els) = false.
Proof. induction els; [reflexivity | assumption]. Qed.

Lemma quiet_cached {K V} `{Countable K} (ttl : option Z)
    (get : State -> gmap K (CacheEntry V))
    (set : gmap K (CacheEntry V) -> State -> State) (key : K) (f : M V) :
  (forall c s, trace (set c s) = trace s) ->
  quiet f -> quiet (cached ttl get set key f).
Proof.
  intros Hset Hf s. unfold cached.
  assert (Hmiss : exists evs,
    trace (match f s with
           | (s', Ok v) =>
               (set (<[key := MkEntry v (omap rendered_of (drop (length (trace s)) (trace s')))
                                      (now s')]> (get s')) s', Ok v)
           | (s', Raise e) => (s', Raise e)
           end).1 = trace s ++ evs /\ prediction_computed evs = false).
  { destruct (Hf s) as (evs & Ht & Hq).
    destruct (f s) as [s' [v|e]]; simpl in *; [rewrite Hset|]; eauto. }
  destruct (get s !! key) as [e|]; [|exact Hmiss].
  destruct (live ttl (stored_at e) (now s)); [|exact Hmiss].
  eexists. simpl. split; [reflexivity | apply prediction_computed_rendered].
Qed.

Ltac quiet_step :=
  match goal with
  | |- quiet (bind _ _) => apply quiet_bind; [|intros]
  | |- quiet (try_except _ _) => apply quiet_try_except; [|intros]
  | |- quiet (ret _) => apply quiet_ret
  | |- quiet (lift _) => apply quiet_lift
  | |- quiet (st _) => apply quiet_st
  | |- quiet (emit _) => apply quiet_emit; reflexivity
  | |- quiet get_session => apply quiet_get_session
  | |- quiet (put_session _) => apply quiet_put_session
  | |- quiet (requests_get _) => apply quiet_requests_get
  | |- quiet (geocode _) => apply quiet_geocode
  | |- quiet (for_each _ _ _) => apply quiet_for_each; intros
  | |- quiet (cached _ _ _ _ _) => apply quiet_cached; [reflexivity|]
  | |- quiet (match ?x with _ => _ end) => destruct x
  | |- quiet (let _ := _ in _) => cbv zeta
  end.

Lemma quiet_load_model_cached (path : string) : quiet (load_model_cached path).
Proof. unfold load_model_cached, load_model, open_and_load. repeat quiet_step. Qed.

Lemma quiet_get_forecast_data_cached (lat lon : spec_float) (d : date) :
  quiet (get_forecast_data_cached lat lon d).
Proof. unfold get_forecast_data_cached, get_forecast_data. repeat quiet_step. Qed.

Lemma quiet_event_input_view (v : Variant) (w : Widgets) : quiet (event_input_view v w).
Proof. unfold event_input_view, geocoding_block. repeat quiet_step. Qed.

Lemma quiet_history_view (v : Variant) : quiet (history_view v).
Proof.
  unfold history_view, get_historical_daily_rain_cached, get_historical_daily_rain,
    history_step.
  repeat quiet_step.
Qed.






(** C8. When the geocoder raises or finds no match, the block leaves the
    session, and so the stored latitude and longitude, as it found them,
    shows one warning (no match) or one error (service error) and raises
    nothing. *)
Theorem geocoding_failure_keeps_coordinates (name : string) (s : State) :
  let r := nominatim (length (trace s)) name in
  r = Ok None \/ (exists e, r = Raise e) ->
  let s' := (geocoding_block name s).1 in
  outcome (geocoding_block name) s = Ok tt /\
  latitude (session s') = latitude (session s) /\
  longitude (session s') = longitude (session s) /\
  session s' = session s /\
  exists msg,
    events (geocoding_block name) s = [Geocode name; Render (StWarning msg)] \/
    events (geocoding_block name) s = [Geocode name; Render (StError msg)].
Proof.
  cbv zeta. intros H. run_view.
  destruct H as [H | [e H]]; rewrite H; simpl;
    rewrite <- !app_assoc, drop_app_length; simpl; eauto 8.
Qed.

Lemma get_forecast_data_run (lat lon : spec_float) (d : date) (s : State) :
  let url := forecast_url lat lon d in
  get_forecast_data lat lon d s =
  match fetched (http_get (length (trace s)) url) with
  | Ok x => (set_trace (trace s ++ [HttpGet url]) s, Ok x)
  | Raise e =>
      (set_trace (trace s ++ [HttpGet url; Render (StError
         ("Could not fetch forecast data for the model: " ++ exn_str e)%string)]) s,
       Ok PNone)
  end.
Proof.
  cbv zeta. run_view. unfold fetched.
  destruct (http_get (length (trace s)) (forecast_url lat lon d)) as [res|e]; simpl.
  - destruct (raise_for_status res) as [[]|e]; simpl.
    + destruct (json res); simpl; rewrite <- ?app_assoc; reflexivity.
    + rewrite <- app_assoc. reflexivity.
  - rewrite <- app_assoc. reflexivity.
Qed.

(** ** The cache in front of the forecast request *)

Lemma get_forecast_data_cached_hit (lat lon : spec_float) (d : date) (s : State)
    (e : CacheEntry pyval) :
  forecast_cache s !! (lat, lon, d) = Some e ->
  (now s < stored_at e + hours 1)%Z ->
  get_forecast_data_cached lat lon d s =
  (set_trace (trace s ++ map Render (cached_elements e)) s, Ok (cached_value e)).
Proof.
  intros He Hlive. unfold get_forecast_data_cached, cached. rewrite He. simpl.
  apply Z.ltb_lt in Hlive. rewrite Hlive. reflexivity.
Qed.

Lemma requests_issued_rendered (els : list Element) :
  requests_issued (map Render els) = 0%nat.
Proof. induction els; [reflexivity | assumption]. Qed.

Lemma get_forecast_data_cached_run (lat lon : spec_float) (d : date) (s : State) :
  let m := get_forecast_data_cached lat lon d in
  exists x e,
    outcome m s = Ok x /\
    forecast_cache (m s).1 !! (lat, lon, d) = Some e /\
    cached_value e = x /\
    (requests_issued (events m s) <= 1)%nat /\
    ((forecast_cache s !! (lat, lon, d) = Some e /\
      requests_issued (events m s) = 0%nat) \/
     stored_at e = now s).
Proof.
  cbv zeta. unfold get_forecast_data_cached, cached, outcome, events.
  pose proof (get_forecast_data_run lat lon d s) as Hrun. cbv zeta in Hrun.
  assert (Hmiss : forall (c : State * result pyval),
    c = match get_forecast_data lat lon d s with
        | (s', Ok x) =>
            (set_forecast_cache
               (<[(lat, lon, d) :=
                    MkEntry x (omap rendered_of (drop (length (trace s)) (trace s')))
                            (now s')]> (forecast_cache s')) s', Ok x)
        | (s', Raise e) => (s', Raise e)
        end ->
    exists x e, c.2 = Ok x /\ forecast_cache c.1 !! (lat, lon, d) = Some e /\
      cached_value e = x /\
      (requests_issued (drop (length (trace s)) (trace c.1)) <= 1)%nat /\
      ((forecast_cache s !! (lat, lon, d) = Some e /\
        requests_issued (drop (length (trace s)) (trace c.1)) = 0%nat) \/
       stored_at e = now s)).
  { intros c ->. rewrite Hrun.
    destruct (fetched _) as [x|err]; simpl;
      rewrite drop_app_length; simpl;
      eexists _, _; (split; [reflexivity|]); rewrite lookup_insert_eq;
      (split; [reflexivity|]); simpl; repeat split; auto. }
  destruct (forecast_cache s !! (lat, lon, d)) as [e|] eqn:He; simpl.
  - destruct (now s <? stored_at e + hours 1)%Z eqn:Hlive; simpl.
    + exists (cached_value e), e. rewrite drop_app_length, requests_issued_rendered.
      repeat split; auto.
    + destruct (Hmiss _ eq_refl) as (x & e' & H1 & H2 & H3 & H4 & [[H5 _]|H5]).
      * exists x, e'. repeat split; auto.
        left. split; [assumption|]. exfalso. clear Hmiss.
        rewrite Hrun in H2. destruct (fetched _); simpl in H2;
          rewrite lookup_insert_eq in H2; injection H2 as <-;
          injection H5 as ->; simpl in Hlive; unfold hours in Hlive; lia.
      * exists x, e'. repeat split; auto.
  - destruct (Hmiss _ eq_refl) as (x & e' & H1 & H2 & H3 & H4 & [[H5 _]|H5]); [congruence|].
    exists x, e'. repeat split; auto.
Qed.

(** C5, as amended. [get_forecast_data] never raises. It shows one error
    and returns [None] when the request raises, when the status is a 4xx
    or a 5xx (the ones [raise_for_status] turns into an exception), and
    when the body does not parse as JSON; for every other response it
    returns the parsed JSON and shows nothing. Behind its cache it never
    raises either. *)
Theorem get_forecast_data_boundary (lat lon : spec_float) (d : date) (s : State) :
  let url := forecast_url lat lon d in
  let reply := http_get (length (trace s)) url in
  let m := get_forecast_data lat lon d in
  let failed := exists msg, outcome m s = Ok PNone /\
                            events m s = [HttpGet url; Render (StError msg)] in
  (exists x, outcome m s = Ok x) /\
  (exists x, outcome (get_forecast_data_cached lat lon d) s = Ok x) /\
  (forall e, reply = Raise e -> failed) /\
  (forall res, reply = Ok res -> 400 <= status_code res < 600 -> failed) /\
  (forall res e, reply = Ok res -> json res = Raise e -> failed) /\
  (forall res x, reply = Ok res -> ~ 400 <= status_code res < 600 ->
     json res = Ok x -> outcome m s = Ok x /\ events m s = [HttpGet url]).
Proof.
  cbv zeta.
  pose proof (get_forecast_data_run lat lon d s) as Hrun. cbv zeta in Hrun.
  assert (Hfail : forall e, fetched (http_get (length (trace s)) (forecast_url lat lon d)) = Raise e ->
            exists msg, outcome (get_forecast_data lat lon d) s = Ok PNone /\
              events (get_forecast_data lat lon d) s
              = [HttpGet (forecast_url lat lon d); Render (StError msg)]).
  { intros e He. rewrite He in Hrun. apply run_events in Hrun as [-> ->]. eauto. }
  split; [|split; [|split; [|split; [|split]]]].
  - unfold outcome. rewrite Hrun. destruct (fetched _); simpl; eauto.
  - destruct (get_forecast_data_cached_run lat lon d s) as (x & _ & Hx & _). eauto.
  - intros e He. apply (Hfail e). rewrite He. reflexivity.
  - intros res He Hst. eapply Hfail. rewrite He. unfold fetched, raise_for_status.
    replace ((400 <=? status_code res)%Z && (status_code res <? 600)%Z) with true
      by (symmetry; apply andb_true_iff; split; [apply Z.leb_le | apply Z.ltb_lt]; lia).
    reflexivity.
  - intros res e He Hj.
    destruct (fetched (http_get (length (trace s)) (forecast_url lat lon d))) as [x|e'] eqn:F.
    + exfalso. rewrite He in F. unfold fetched in F.
      destruct (raise_for_status res) as [[]|]; congruence.
    + eauto.
  - intros res x He Hst Hj.
    assert (F : fetched (http_get (length (trace s)) (forecast_url lat lon d)) = Ok x).
    { rewrite He. unfold fetched, raise_for_status.
      replace ((400 <=? status_code res)%Z && (status_code res <? 600)%Z) with false; [exact Hj|].
      symmetry. apply andb_false_iff.
      destruct (Z.leb_spec 400 (status_code res)); [right; apply Z.ltb_ge; lia | left; reflexivity]. }
    rewrite F in Hrun. apply run_events in Hrun as [-> ->]. split; reflexivity.
Qed.

(** C9. Two calls of the cached [get_forecast_data] with one key, the
    second before the entry the first one left for that key expires (one
    hour after it was stored) and with the cache as the first call left it:
    together they issue at most one network request, the second issues
    none, and they return the same value. *)
Theorem forecast_memoized (lat lon : spec_float) (d : date) (s1 s2 : State) :
  let m := get_forecast_data_cached lat lon d in
  let s1' := (m s1).1 in
  forecast_cache s2 = forecast_cache s1' ->
  (exists t, expires_at s1' (lat, lon, d) = Some t /\ (now s2 < t)%Z) ->
  (requests_issued (events m s1) + requests_issued (events m s2) <= 1)%nat /\
  requests_issued (events m s2) = 0%nat /\
  outcome m s2 = outcome m s1.
Proof.
  cbv zeta. intros Hsame (t & Ht & Hnow).
  destruct (get_forecast_data_cached_run lat lon d s1) as (x & e & Hx & He & Hv & Hreq & _).
  cbv zeta in *. unfold expires_at in Ht. rewrite He in Ht. injection Ht as <-.
  rewrite <- Hsame in He.
  pose proof (get_forecast_data_cached_hit lat lon d s2 e He Hnow) as Hhit.
  apply run_events in Hhit as [-> ->].
  rewrite requests_issued_rendered, Hx, Hv. repeat split; lia.
Qed.

(** The entry a call leaves when it found none lives for one hour from the
    time of the call. *)
Lemma fresh_entry_expiry (lat lon : spec_float) (d : date) (s : State) :
  forecast_cache s !! (lat, lon, d) = None ->
  expires_at (get_forecast_data_cached lat lon d s).1 (lat, lon, d)
  = Some (now s + hours 1)%Z.
Proof.
  intros Hnone.
  destruct (get_forecast_data_cached_run lat lon d s) as (x & e & _ & He & _ & _ & [[H _]|H]).
  - congruence.
  - cbv zeta in He. unfold expires_at. rewrite He, H. reflexivity.
Qed.

(** ** The five archive requests *)

Lemma sub_days_offset (d : date) (i : Z) :
  offsets_exist d -> (1 <= i <= 5)%Z ->
  Datetime.sub_days d (i * 365) = Ok (offset_date d i).
Proof.
  unfold offsets_exist, Datetime.sub_days, offset_date.
  intros [Hv Hd] Hi. pose proof (valid_toordinal_le d Hv) as Hle.
  replace (0 <? Datetime.toordinal d - i * 365)%Z with true
    by (symmetry; apply Z.ltb_lt; lia).
  replace (Datetime.toordinal d - i * 365 <=? Datetime.MAXORDINAL)%Z with true
    by (symmetry; apply Z.leb_le; lia).
  reflexivity.
Qed.

Lemma history_step_run (lat lon : spec_float) (d : date) (acc : list HistoryRow)
    (i : Z) (s : State) (pd : date) :
  Datetime.sub_days d (i * 365) = Ok pd ->
  history_step lat lon d acc i s =
  (set_trace (trace s ++ [HttpGet (archive_url lat lon pd)]) s,
   Ok (acc ++ row_of (year pd)
                (rainfall_of (http_get (length (trace s)) (archive_url lat lon pd))))).
Proof.
  intros H. unfold history_step. cbv [bind lift ret try_except requests_get].
  rewrite H. unfold rainfall_of, row_of.
  destruct (http_get _ _) as [resp|e]; simpl; [|rewrite app_nil_r; reflexivity].
  destruct (json resp) as [res|e]; simpl; [|rewrite app_nil_r; reflexivity].
  destruct (Py.getitem res "daily") as [daily|e]; simpl; [|rewrite app_nil_r; reflexivity].
  destruct (Py.getitem daily "precipitation_sum") as [sums|e]; simpl;
    [|rewrite app_nil_r; reflexivity].
  destruct (Py.first sums) as [rain|e]; simpl; [|rewrite app_nil_r]; reflexivity.
Qed.

Lemma get_historical_daily_rain_run (lat lon : spec_float) (d : date) (s : State) :
  offsets_exist d ->
  get_historical_daily_rain lat lon d s =
  (set_trace (trace s ++ map (fun i => HttpGet (archive_url lat lon (offset_date d i)))
                             [5; 4; 3; 2; 1]%Z) s,
   Ok (flat_map (contribution lat lon d s) [5; 4; 3; 2; 1]%Z)).
Proof.
  intros Hd. unfold get_historical_daily_rain, contribution, reply_to.
  cbn [for_each flat_map map]. unfold bind at 1.
  rewrite (history_step_run _ _ _ _ _ _ _ (sub_days_offset d 5 Hd ltac:(lia))).
  unfold bind at 1.
  rewrite (history_step_run _ _ _ _ _ _ _ (sub_days_offset d 4 Hd ltac:(lia))).
  unfold bind at 1.
  rewrite (history_step_run _ _ _ _ _ _ _ (sub_days_offset d 3 Hd ltac:(lia))).
  unfold bind at 1.
  rewrite (history_step_run _ _ _ _ _ _ _ (sub_days_offset d 2 Hd ltac:(lia))).
  unfold bind at 1.
  rewrite (history_step_run _ _ _ _ _ _ _ (sub_days_offset d 1 Hd ltac:(lia))).
  unfold ret, set_trace. simpl. rewrite !length_app. simpl.
  rewrite <- !app_assoc. simpl. rewrite app_nil_r.
  replace (length (trace s) + 1 + 1 + 1 + 1)%nat with (length (trace s) + 4)%nat by lia.
  replace (length (trace s) + 1 + 1 + 1)%nat with (length (trace s) + 3)%nat by lia.
  replace (length (trace s) + 1 + 1)%nat with (length (trace s) + 2)%nat by lia.
  change (Z.to_nat (5 - 5)) with 0%nat. change (Z.to_nat (5 - 4)) with 1%nat.
  change (Z.to_nat (5 - 3)) with 2%nat. change (Z.to_nat (5 - 2)) with 3%nat.
  change (Z.to_nat (5 - 1)) with 4%nat. rewrite Nat.add_0_r.
  reflexivity.
Qed.




(** The years a run reports: each row carries the year of one of the five
    offset dates, which is [i] years before the event year or, when the 365
    day steps fall short of the leap days in between, one year later. *)
Lemma history_years (lat lon : spec_float) (d : date) (s : State) :
  offsets_exist d ->
  exists rows,
    outcome (get_historical_daily_rain lat lon d) s = Ok rows /\
    forall row, In row rows ->
      exists i, (1 <= i <= 5)%Z /\
        row_year row = year (offset_date d i) /\
        (row_year row = year d - i \/ row_year row = year d - i + 1).
Proof.
  intros Hd.
  pose proof (get_historical_daily_rain_run lat lon d s Hd) as Hrun.
  apply run_events in Hrun as [_ ->].
  eexists; split; [reflexivity|].
  intros row Hin. apply in_flat_map in Hin as (i & Hi & Hrow).
  assert (1 <= i <= 5) by (simpl in Hi; lia).
  exists i. split; [assumption|].
  unfold contribution, row_of in Hrow.
  destruct (rainfall_of _); simpl in Hrow; [|contradiction].
  destruct Hrow as [<- | []]. simpl. split; [reflexivity|].
  destruct Hd as [Hv Ho]. apply offset_year_drift; assumption.
Qed.

(** ** The caches, in general *)

Lemma cached_hit {K V} `{Countable K} (ttl : option Z)
    (get : State -> gmap K (CacheEntry V))
    (set : gmap K (CacheEntry V) -> State -> State)
    (key : K) (f : M V) (s : State) (e : CacheEntry V) :
  get s !! key = Some e ->
  live ttl (stored_at e) (now s) = true ->
  cached ttl get set key f s =
  (set_trace (trace s ++ map Render (cached_elements e)) s, Ok (cached_value e)).
Proof. intros He Hl. unfold cached. rewrite He, Hl. reflexivity. Qed.

Lemma cached_miss {K V} `{Countable K} (ttl : option Z)
    (get : State -> gmap K (CacheEntry V))
    (set : gmap K (CacheEntry V) -> State -> State)
    (key : K) (f : M V) (s : State) :
  (forall e, get s !! key = Some e -> live ttl (stored_at e) (now s) = false) ->
  cached ttl get set key f s =
  match f s with
  | (s', Ok v) =>
      (set (<[key := MkEntry v (omap rendered_of (drop (length (trace s)) (trace s')))
                             (now s')]> (get s')) s', Ok v)
  | (s', Raise e) => (s', Raise e)
  end.
Proof.
  intros Hl. unfold cached. destruct (get s !! key) as [e|]; [|reflexivity].
  rewrite (Hl e eq_refl). reflexivity.
Qed.

(** What a call leaves in the cache when it returns: an entry for its key
    holding the value returned. *)
Lemma cached_entry {K V} `{Countable K} (ttl : option Z)
    (get : State -> gmap K (CacheEntry V))
    (set : gmap K (CacheEntry V) -> State -> State)
    (key : K) (f : M V) (s : State) (v : V) :
  (forall c s0, get (set c s0) = c) ->
  (forall t s0, get (set_trace t s0) = get s0) ->
  outcome (cached ttl get set key f) s = Ok v ->
  exists e, get (cached ttl get set key f s).1 !! key = Some e /\ cached_value e = v.
Proof.
  intros Hgs Hgt. unfold outcome, cached.
  destruct (get s !! key) as [e|] eqn:He.
  - destruct (live ttl (stored_at e) (now s)); simpl.
    + intros [= <-]. exists e. rewrite Hgt. auto.
    + destruct (f s) as [s' [x|err]]; simpl; [|discriminate].
      intros [= <-]. rewrite Hgs, lookup_insert_eq. eauto.
  - destruct (f s) as [s' [x|err]]; simpl; [|discriminate].
    intros [= <-]. rewrite Hgs, lookup_insert_eq. eauto.
Qed.

Lemma files_opened_rendered (els : list Element) :
  files_opened (map Render els) = 0%nat.
Proof. induction els; [reflexivity | assumption]. Qed.

Lemma load_model_total (path : string) (s : State) :
  exists evs r, load_model path s = (set_trace (trace s ++ evs) s, Ok r).
Proof.
  unfold load_model, open_and_load. cbv [bind lift ret st emit try_except]. simpl.
  destruct (read_pickle path) as [clf|e]; simpl.
  - eexists _, _. reflexivity.
  - destruct (decide (exn_cls e = FileNotFoundError)); simpl;
      rewrite <- app_assoc; eexists _, _; reflexivity.
Qed.

(** X1. [st.cache_resource] has no time to live: once a call of
    [load_model] has returned, a later call for the same path, at any
    time and as long as the cache is as that call left it, opens no file
    and returns the same value; a failed load stays [None]. *)
Theorem load_model_remembered (path : string) (s1 s2 : State) :
  let m := load_model_cached path in
  model_cache s2 = model_cache (m s1).1 ->
  files_opened (events m s2) = 0%nat /\
  outcome m s2 = outcome m s1 /\
  exists r, outcome m s1 = Ok r.
Proof.
  cbv zeta. intros Hsame.
  assert (Hok : exists r, outcome (load_model_cached path) s1 = Ok r).
  { unfold outcome, load_model_cached, cached.
    destruct (load_model_total path s1) as (evs & r & ->).
    destruct (model_cache s1 !! path); simpl; eauto. }
  destruct Hok as [r Hr].
  destruct (cached_entry None model_cache set_model_cache path (load_model path) s1 r
              ltac:(reflexivity) ltac:(reflexivity) Hr) as (e & He & Hv).
  fold (load_model_cached path) in He. rewrite <- Hsame in He.
  pose proof (cached_hit None model_cache set_model_cache path (load_model path) s2 e
                He eq_refl) as Hhit.
  fold (load_model_cached path) in Hhit.
  apply run_events in Hhit as [-> ->].
  rewrite files_opened_rendered, Hr, Hv. eauto.
Qed.

(** X2. An entry of the forecast cache that is one hour old or older is
    not served: the call issues one request, returns what a fresh fetch
    returns and stores it under the time of the call. *)
Theorem forecast_refetched_after_expiry (lat lon : spec_float) (d : date)
    (s : State) (e : CacheEntry pyval) :
  forecast_cache s !! (lat, lon, d) = Some e ->
  stored_at e + hours 1 <= now s ->
  let m := get_forecast_data_cached lat lon d in
  requests_issued (events m s) = 1%nat /\
  outcome m s = outcome (get_forecast_data lat lon d) s /\
  exists e', forecast_cache (m s).1 !! (lat, lon, d) = Some e' /\
             stored_at e' = now s /\ outcome m s = Ok (cached_value e').
Proof.
  intros He Hold. cbv zeta.
  assert (Hmiss : forall e0, forecast_cache s !! (lat, lon, d) = Some e0 ->
                    live (Some (hours 1)) (stored_at e0) (now s) = false).
  { intros e0 He0. rewrite He in He0. injection He0 as <-. simpl. apply Z.ltb_ge. lia. }
  unfold get_forecast_data_cached, events, outcome.
  rewrite (cached_miss _ _ _ _ _ _ Hmiss).
  pose proof (get_forecast_data_run lat lon d s) as Hrun. cbv zeta in Hrun.
  rewrite Hrun.
  destruct (fetched _) as [x|err]; simpl;
    rewrite drop_app_length, lookup_insert_eq; simpl;
    (split; [reflexivity|]); (split; [reflexivity|]); eauto.
Qed.

Lemma get_forecast_data_cached_frame (lat lon : spec_float) (d : date) (s : State) :
  let s' := (get_forecast_data_cached lat lon d s).1 in
  session s' = session s /\ now s' = now s /\
  model_cache s' = model_cache s /\ history_cache s' = history_cache s /\
  forall k, k <> (lat, lon, d) -> forecast_cache s' !! k = forecast_cache s !! k.
Proof.
  cbv zeta. unfold get_forecast_data_cached, cached.
  pose proof (get_forecast_data_run lat lon d s) as Hrun. cbv zeta in Hrun.
  assert (Hmiss :
    let c := match get_forecast_data lat lon d s with
             | (s', Ok v) =>
                 (set_forecast_cache
                    (<[(lat, lon, d) :=
                         MkEntry v (omap rendered_of (drop (length (trace s)) (trace s')))
                                 (now s')]> (forecast_cache s')) s', Ok v)
             | (s', Raise e) => (s', Raise e)
             end in
    session c.1 = session s /\ now c.1 = now s /\
    model_cache c.1 = model_cache s /\ history_cache c.1 = history_cache s /\
    forall k, k <> (lat, lon, d) -> forecast_cache c.1 !! k = forecast_cache s !! k).
  { cbv zeta. rewrite Hrun. destruct (fetched _); simpl; repeat split; auto;
      intros k Hk; apply lookup_insert_ne; congruence. }
  destruct (forecast_cache s !! (lat, lon, d)) as [e|]; [|exact Hmiss].
  destruct (live _ _ _); [|exact Hmiss].
  simpl. repeat split; auto.
Qed.

(** X3. A forecast lookup touches nothing but the trace and the cache
    entry of its own key: the session, the clock, the two other caches and
    the entries of every other key are as before. *)
Theorem forecast_lookup_frame (lat lon : spec_float) (d : date) (s : State) :
  let s' := (get_forecast_data_cached lat lon d s).1 in
  session s' = session s /\ now s' = now s /\
  model_cache s' = model_cache s /\ history_cache s' = history_cache s /\
  forall k, k <> (lat, lon, d) -> forecast_cache s' !! k = forecast_cache s !! k.
Proof. exact (get_forecast_data_cached_frame lat lon d s). Qed.

(** ** More on the five archive requests *)

Lemma ord2ymd_year_mono (n n' : Z) :
  1 <= n <= n' -> year (Datetime.ord2ymd n) <= year (Datetime.ord2ymd n').
Proof.
  intros Hn.
  pose proof (ord2ymd_year n ltac:(lia)) as H1.
  pose proof (ord2ymd_year n' ltac:(lia)) as H2.
  destruct (Z_le_gt_dec (year (Datetime.ord2ymd n)) (year (Datetime.ord2ymd n')))
    as [|Hgt]; [assumption|exfalso].
  pose proof (days_before_year_mono (year (Datetime.ord2ymd n') + 1)
                (year (Datetime.ord2ymd n)) ltac:(lia)).
  lia.
Qed.

Lemma offset_year_mono (d : date) (i j : Z) :
  offsets_exist d -> 1 <= i <= j -> j <= 5 ->
  year (offset_date d j) <= year (offset_date d i).
Proof.
  intros [_ Hd] Hij Hj. unfold offset_date. apply ord2ymd_year_mono. lia.
Qed.

Lemma toordinal_ord2ymd_year (d : date) :
  Datetime.valid d -> 
  Datetime.days_before_year (year d) < Datetime.toordinal d
  <= Datetime.days_before_year (year d + 1).
Proof.
  intros Hv. pose proof (month_day_bounds d Hv) as Hb.
  unfold Datetime.toordinal, Datetime.ymd2ord. rewrite days_before_next_year.
  destruct (Datetime.is_leap (year d)); lia.
Qed.

Lemma offset_year_le (d : date) (i : Z) :
  offsets_exist d -> 1 <= i <= 5 -> year (offset_date d i) <= year d.
Proof.
  intros [Hv Hd] Hi. unfold offset_date.
  pose proof (toordinal_ord2ymd_year d Hv) as HT.
  pose proof (ord2ymd_year (Datetime.toordinal d - i * 365) ltac:(lia)) as Hy.
  destruct (Z_le_gt_dec (year (Datetime.ord2ymd (Datetime.toordinal d - i * 365))) (year d))
    as [|Hgt]; [assumption|exfalso].
  pose proof (days_before_year_mono (year d + 1)
                (year (Datetime.ord2ymd (Datetime.toordinal d - i * 365))) ltac:(lia)).
  lia.
Qed.

(** X4. The rows of a run are in chronological order: their years never
    decrease from one row to the next, and each lies between five years
    before the event year and the event year itself. *)
Theorem history_chronological (lat lon : spec_float) (d : date) (s : State) :
  offsets_exist d ->
  exists rows,
    outcome (get_historical_daily_rain lat lon d) s = Ok rows /\
    StronglySorted Z.le (map row_year rows) /\
    forall row, In row rows -> year d - 5 <= row_year row <= year d.
Proof.
  intros Hd.
  pose proof (get_historical_daily_rain_run lat lon d s Hd) as Hrun.
  apply run_events in Hrun as [_ ->].
  eexists; split; [reflexivity|].
  pose proof (offset_year_mono d 4 5 Hd ltac:(lia) ltac:(lia)).
  pose proof (offset_year_mono d 3 4 Hd ltac:(lia) ltac:(lia)).
  pose proof (offset_year_mono d 2 3 Hd ltac:(lia) ltac:(lia)).
  pose proof (offset_year_mono d 1 2 Hd ltac:(lia) ltac:(lia)).
  split.
  - cbn [flat_map]. rewrite app_nil_r. unfold contribution, row_of.
    generalize dependent (year (offset_date d 5)); intros y5.
    generalize dependent (year (offset_date d 4)); intros y4.
    generalize dependent (year (offset_date d 3)); intros y3.
    generalize dependent (year (offset_date d 2)); intros y2.
    generalize dependent (year (offset_date d 1)); intros y1.
    intros H12 H23 H34 H45.
    destruct (rainfall_of (reply_to lat lon d s 5)),
             (rainfall_of (reply_to lat lon d s 4)),
             (rainfall_of (reply_to lat lon d s 3)),
             (rainfall_of (reply_to lat lon d s 2)),
             (rainfall_of (reply_to lat lon d s 1)); cbn [app map row_year];
      repeat (constructor; try lia).
  - intros row Hin. apply in_flat_map in Hin as (i & Hi & Hrow).
    assert (Hi' : 1 <= i <= 5) by (simpl in Hi; lia).
    pose proof (offset_year_le d i Hd Hi') as Hle.
    destruct Hd as [Hv Ho].
    assert (Hdrift : year (offset_date d i) = year d - i \/
                     year (offset_date d i) = year d - i + 1)
      by (apply offset_year_drift; assumption).
    unfold contribution, row_of in Hrow.
    generalize dependent (year (offset_date d i)); intros y Hrow Hle Hdrift.
    destruct (rainfall_of _); cbn [In] in Hrow; [|contradiction].
    destruct Hrow as [<- | []]. cbn [row_year]. lia.
Qed.

Lemma history_overflow_run (lat lon : spec_float) (d : date) (s : State) :
  Datetime.toordinal d <= 5 * 365 ->
  get_historical_daily_rain lat lon d s
  = (s, Raise (MkExn OverflowError "date value out of range")).
Proof.
  intros Hd. unfold get_historical_daily_rain. cbn [for_each]. unfold bind at 1.
  unfold history_step, bind at 1, lift, Datetime.sub_days.
  replace (0 <? Datetime.toordinal d - 5 * 365) with false
    by (symmetry; apply Z.ltb_ge; lia).
  reflexivity.
Qed.

(** X5. For an event date within the first [5 * 365] days of the calendar
    the first subtraction overflows: the fetch raises [OverflowError] at
    once, issues no request and stores nothing, and the History view, which
    has no [try] around it, lets the exception escape after its header. *)
Theorem history_overflow (lat lon : spec_float) (d : date) (v : Variant) (s : State) :
  Datetime.toordinal d <= 5 * 365 ->
  let overflow := MkExn OverflowError "date value out of range" in
  get_historical_daily_rain lat lon d s = (s, Raise overflow) /\
  (history_cache s !! (lat, lon, d) = None ->
   get_historical_daily_rain_cached lat lon d s = (s, Raise overflow)) /\
  (event_date (session s) = d ->
   history_cache s !! (latitude (session s), longitude (session s), d) = None ->
   outcome (history_view v) s = Raise overflow /\
   exists hd, events (history_view v) s = [Render (StHeader hd)]).
Proof.
  intros Hd. cbv zeta. split; [|split].
  - apply history_overflow_run; assumption.
  - intros Hc. unfold get_historical_daily_rain_cached, cached. rewrite Hc.
    rewrite history_overflow_run by assumption. reflexivity.
  - intros <- Hc. unfold history_view, outcome, events.
    cbv [bind get_session st emit]. simpl.
    unfold get_historical_daily_rain_cached, cached. simpl. rewrite Hc.
    rewrite history_overflow_run by assumption. simpl.
    rewrite drop_app_length. eauto.
Qed.

Lemma get_historical_daily_rain_cached_miss (lat lon : spec_float) (d : date) (s : State) :
  offsets_exist d ->
  (forall e, history_cache s !! (lat, lon, d) = Some e ->
             stored_at e + hours 6 <= now s) ->
  let rows := flat_map (contribution lat lon d s) [5; 4; 3; 2; 1] in
  let gets := map (fun i => HttpGet (archive_url lat lon (offset_date d i))) [5; 4; 3; 2; 1] in
  get_historical_daily_rain_cached lat lon d s =
  (set_history_cache (<[(lat, lon, d) := MkEntry rows [] (now s)]> (history_cache s))
     (set_trace (trace s ++ gets) s), Ok rows).
Proof.
  intros Hd Hold. cbv zeta. unfold get_historical_daily_rain_cached.
  rewrite cached_miss.
  - rewrite (get_historical_daily_rain_run lat lon d s Hd). simpl.
    rewrite drop_app_length. reflexivity.
  - intros e He. simpl. apply Z.ltb_ge. apply Hold in He. lia.
Qed.

(** X6. The history is memoized for six hours, partial results included:
    after a run for a date whose offsets exist, a call with the same key
    before the entry expires, on the cache as that run left it, issues no
    request and returns the same rows; the years that failed stay
    missing. *)
Theorem history_memoized (lat lon : spec_float) (d : date) (s1 s2 : State) :
  offsets_exist d ->
  let m := get_historical_daily_rain_cached lat lon d in
  history_cache s2 = history_cache (m s1).1 ->
  (forall e, history_cache (m s1).1 !! (lat, lon, d) = Some e ->
             now s2 < stored_at e + hours 6) ->
  requests_issued (events m s2) = 0%nat /\
  outcome m s2 = outcome m s1 /\
  exists rows, outcome m s1 = Ok rows.
Proof.
  intros Hd. cbv zeta. intros Hsame Hlive.
  assert (Hok : exists rows, outcome (get_historical_daily_rain_cached lat lon d) s1 = Ok rows).
  { unfold outcome, get_historical_daily_rain_cached, cached.
    rewrite (get_historical_daily_rain_run lat lon d s1 Hd).
    destruct (history_cache s1 !! (lat, lon, d)) as [e|]; simpl; eauto.
    destruct (_ <? _); simpl; eauto. }
  destruct Hok as [rows Hrows].
  destruct (cached_entry (Some (hours 6)) history_cache set_history_cache (lat, lon, d)
              (get_historical_daily_rain lat lon d) s1 rows
              ltac:(reflexivity) ltac:(reflexivity) Hrows) as (e & He & Hv).
  fold (get_historical_daily_rain_cached lat lon d) in He.
  pose proof (Hlive e He) as Hl. rewrite <- Hsame in He.
  assert (Hl' : live (Some (hours 6)) (stored_at e) (now s2) = true)
    by (simpl; apply Z.ltb_lt; assumption).
  pose proof (cached_hit (Some (hours 6)) history_cache set_history_cache (lat, lon, d)
                (get_historical_daily_rain lat lon d) s2 e He Hl') as Hhit.
  fold (get_historical_daily_rain_cached lat lon d) in Hhit.
  apply run_events in Hhit as [-> ->].
  rewrite requests_issued_rendered, Hrows, Hv. eauto.
Qed.

(** X7. The History view on a date whose offsets exist and with no entry
    in the cache: after the header it issues the five requests; when none
    of them yields a row it shows the warning and returns normally, and
    otherwise it shows the chart of the rows, or raises what drawing the
    chart raises. *)
Theorem history_view_run (v : Variant) (s : State) :
  let lat := latitude (session s) in
  let lon := longitude (session s) in
  let d := event_date (session s) in
  offsets_exist d ->
  history_cache s !! (lat, lon, d) = None ->
  exists hd,
    let s1 := set_trace (trace s ++ [Render (StHeader hd)]) s in
    let rows := flat_map (contribution lat lon d s1) [5; 4; 3; 2; 1] in
    let gets := map (fun i => HttpGet (archive_url lat lon (offset_date d i)))
                    [5; 4; 3; 2; 1] in
    match rows with
    | [] =>
        outcome (history_view v) s = Ok tt /\
        events (history_view v) s
        = Render (StHeader hd) :: gets
          ++ [Render (StWarning "Could not load historical data from the API.")]
    | _ :: _ =>
        match history_chart rows d with
        | Ok fig =>
            outcome (history_view v) s = Ok tt /\
            events (history_view v) s
            = Render (StHeader hd) :: gets ++ [Render (StPyplot fig)]
        | Raise e =>
            outcome (history_view v) s = Raise e /\
            events (history_view v) s = Render (StHeader hd) :: gets
        end
    end.
Proof.
  cbv zeta. intros Hd Hc.
  exists ((match v with
           | RadioNav => "📊Rainfall History for "
           | TabNav => "📊 Rainfall History for "
           end) ++ strftime "%B %d" (event_date (session s)))%string.
  unfold history_view, outcome, events.
  cbv [bind get_session st emit]. cbn [fst snd session trace set_trace].
  rewrite get_historical_daily_rain_cached_miss;
    [| assumption | cbn [history_cache set_trace]; intros e He; rewrite Hc in He; discriminate].
  cbv zeta.
  match goal with
  | |- match ?r with _ => _ end => set (rows := r)
  end.
  set (gets := map _ _).
  destruct rows as [|row rows].
  - cbn [fst snd trace set_trace set_history_cache].
    rewrite <- !app_assoc, drop_app_length. split; reflexivity.
  - cbv [lift]. destruct (history_chart (row :: rows) (event_date (session s)));
      cbn [fst snd trace set_trace set_history_cache session];
      rewrite <- ?app_assoc, drop_app_length; split; reflexivity.
Qed.

(** ** The two predicting views, when they predict *)

Lemma daily_record_inv (fd : pyval) (r : pyval * pyval * pyval) :
  daily_record fd = Some r ->
  Py.truthy fd = true /\ Py.contains "daily" fd = Ok true /\
  exists daily c1 c2 c3,
    Py.getitem fd "daily" = Ok daily /\
    Py.getitem daily "temperature_2m_max" = Ok c1 /\ Py.first c1 = Ok r.1.1 /\
    Py.getitem daily "temperature_2m_min" = Ok c2 /\ Py.first c2 = Ok r.1.2 /\
    Py.getitem daily "windspeed_10m_max" = Ok c3 /\ Py.first c3 = Ok r.2.
Proof.
  unfold daily_record, first_of. intros H.
  destruct (Py.getitem fd "daily") as [daily|] eqn:Hd; [|discriminate].
  destruct (Py.getitem daily "temperature_2m_max") as [c1|] eqn:H1; [|discriminate].
  destruct (Py.first c1) as [x1|] eqn:F1; [|discriminate].
  destruct (Py.getitem daily "temperature_2m_min") as [c2|] eqn:H2; [|discriminate].
  destruct (Py.first c2) as [x2|] eqn:F2; [|discriminate].
  destruct (Py.getitem daily "windspeed_10m_max") as [c3|] eqn:H3; [|discriminate].
  destruct (Py.first c3) as [x3|] eqn:F3; [|discriminate].
  injection H as <-. simpl.
  assert (Hfd : Py.truthy fd = true /\ Py.contains "daily" fd = Ok true).
  { destruct fd; simpl in Hd; try discriminate.
    destruct (Py.lookup "daily" d) eqn:L; [|discriminate].
    simpl. rewrite L. destruct d; [discriminate|]. auto. }
  destruct Hfd. repeat split; auto. exists daily, c1, c2, c3. repeat split; auto.
Qed.



(** X9. With a model, a payload that has a first daily record and a row of
    two probabilities from [predict_proba], the dashboard shows its header,
    the one call, the three metrics, a rule and the subheader; then a
    payload without the key [hourly] makes it raise the [KeyError], and
    otherwise it shows the hourly chart or raises what drawing it
    raises. *)
Theorem dashboard_view_success (v : Variant) (clf : Classifier) (fd : pyval)
    (s : State) (r : pyval * pyval * pyval)
    (p0 p : spec_float) (ps : list spec_float) (rows : list (list spec_float)) :
  daily_record fd = Some r ->
  predict_proba clf (features r) = Ok ((p0 :: p :: ps) :: rows) ->
  let m := forecast_dashboard_view v (Some clf) fd in
  let shown_first :=
    [Render (StHeader ("Forecast for " ++ Datetime.isoformat (event_date (session s)))%string);
     CallPredictProba (features r);
     Render (StMetric (match v with
                       | RadioNav => "Rain Probability"
                       | TabNav => "Rain Probability (Model)"
                       end) (percent 1 p ++ "%")%string);
     Render (StMetric "Max Temperature" (py_str r.1.1 ++ "°C")%string);
     Render (StMetric "Max Wind Speed" (py_str r.2 ++ " km/h")%string);
     Render (StMarkdown "---");
     Render (StSubheader (match v with
                          | RadioNav => "Hourly Forecast"
                          | TabNav => "Hourly Forecast from API"
                          end))] in
  match Py.getitem fd "hourly" with
  | Raise e => outcome m s = Raise e /\ events m s = shown_first
  | Ok hourly =>
      match hourly_chart hourly (event_date (session s)) (event_time (session s)) with
      | Ok fig => outcome m s = Ok tt /\ events m s = shown_first ++ [Render (StPyplot fig)]
      | Raise e => outcome m s = Raise e /\ events m s = shown_first
      end
  end.
Proof.
  intros Hr Hpp. cbv zeta.
  destruct (daily_record_inv fd r Hr)
    as (Ht & Hc & daily & c1 & c2 & c3 & Hd & H1 & F1 & H2 & F2 & H3 & F3).
  unfold features in Hpp.
  unfold outcome, events, forecast_dashboard_view, dashboard_body, input_df,
    model_predict_proba, features.
  cbv [bind lift ret st emit get_session].
  rewrite Ht, Hc, Hd, H1, F1, H2, F2, H3, F3.
  cbn [fst snd trace set_trace session]. rewrite Hpp. cbn [item nth_error].
  cbn [fst snd trace set_trace session].
  destruct (Py.getitem fd "hourly") as [hourly|e];
    cbn [fst snd trace set_trace session].
  - destruct (hourly_chart hourly (event_date (session s)) (event_time (session s)));
      cbn [fst snd trace set_trace session];
      rewrite <- !app_assoc, drop_app_length; split; reflexivity.
  - rewrite <- !app_assoc, drop_app_length; split; reflexivity.
Qed.

Lemma model_calls_quiet (l : list Event) :
  prediction_computed l = false -> model_calls l = [].
Proof.
  unfold prediction_computed, model_calls. induction l as [|ev l IH]; [reflexivity|].
  cbn [existsb]. intros H. apply orb_false_iff in H as [Hev Hl].
  rewrite filter_cons. destruct (decide (is_model_call ev = true)); [congruence|].
  apply IH; assumption.
Qed.

Lemma suggestions_body_calls (v : Variant) (clf : Classifier) (fd : pyval) (s : State) :
  exists evs r,
    suggestions_body v clf fd s = (set_trace (trace s ++ evs) s, r) /\
    (model_calls evs = [] \/
     exists rec, daily_record fd = Some rec /\
       (model_calls evs = [CallPredict (features rec)] \/
        model_calls evs = [CallPredict (features rec); CallPredictProba (features rec)])).
Proof.
  unfold daily_record, first_of, features. run_view. unfold risk_advice.
  split_cases.
  all: rewrite <- ?app_assoc; simpl.
  all: first
    [ exists []; eexists; rewrite set_trace_nil; split; [reflexivity|]; left; reflexivity
    | eexists _, _; split; [reflexivity|]; right; eexists;
      split; [reflexivity|]; first [left; reflexivity | right; reflexivity] ].
Qed.

(** X10. In one run the dashboard calls [predict_proba] at most once and
    never calls [predict]; the suggestions view calls [predict] at most
    once and [predict_proba] at most once, only after [predict] and on the
    same table, the one of the first daily record. *)
Theorem model_calls_of_views (v : Variant) (model : option Classifier) (fd : pyval)
    (s : State) :
  let dash := model_calls (events (forecast_dashboard_view v model fd) s) in
  let sugg := model_calls (events (suggestions_view v model fd) s) in
  (dash = [] \/
   exists rec, daily_record fd = Some rec /\ dash = [CallPredictProba (features rec)]) /\
  (sugg = [] \/
   exists rec, daily_record fd = Some rec /\
     (sugg = [CallPredict (features rec)] \/
      sugg = [CallPredict (features rec); CallPredictProba (features rec)])).
Proof.
  cbv zeta. split.
  - destruct (forecast_dashboard_view_run v model fd s) as (hd & evs & r & Hd & Hdc).
    apply run_events in Hd as [-> _].
    destruct (guard model fd) as [[|]|e].
    + destruct Hdc as [(_ & -> & _) | (rec & rest & Hrec & -> & Hrest)];
        [left; reflexivity|].
      right. exists rec. split; [assumption|].
      unfold model_calls. rewrite !filter_cons. simpl.
      fold (model_calls rest). rewrite (model_calls_quiet rest Hrest). reflexivity.
    + destruct Hdc as (_ & [msg ->]). left; reflexivity.
    + destruct Hdc as (_ & ->). left; reflexivity.
  - unfold suggestions_view.
    destruct model as [clf|];
      [destruct (Py.truthy fd); [destruct (Py.contains "daily" fd) as [[|]|e]|]|].
    2-5: left; unfold events; cbv [bind lift ret st emit get_session suggestions_fallback];
         simpl; rewrite <- ?app_assoc, drop_app_length; reflexivity.
    match goal with
    | |- context [st (StHeader ?h)] =>
        destruct (suggestions_body_calls v clf fd
                    (set_trace (trace s ++ [Render (StHeader h)]) s))
          as (evs & r & Hrun & Hcases)
    end.
    unfold events. cbv [bind lift ret st emit get_session]. simpl.
    unfold set_trace in Hrun |- *. simpl in Hrun. rewrite Hrun.
    simpl. rewrite <- app_assoc, drop_app_length.
    unfold model_calls in *. rewrite ?filter_cons. simpl. exact Hcases.
Qed.

(** ** The Event Input view *)

Lemma event_input_view_state (v : Variant) (w : Widgets) (s : State) :
  let reply := nominatim (length (trace s) + 1) (location_name w) in
  exists evs,
    event_input_view v w s
    = (set_trace (trace s ++ evs) (set_session (entered (session s) reply w) s), Ok tt) /\
    In (Render (StFolium (geocoded (session s) reply).1 (geocoded (session s) reply).2)) evs.
Proof.
  cbv zeta. unfold event_input_view, geocoding_block, geocode, entered, geocoded.
  cbv [bind lift ret st emit get_session put_session try_except].
  cbn [fst snd trace session set_trace set_session].
  rewrite length_app. cbn [length].
  destruct (nominatim (length (trace s) + 1) (location_name w)) as [[loc|]|e];
    destruct (last_clicked w) as [[a b]|];
    cbn [fst snd trace session set_trace set_session latitude longitude event_date
         event_time event_type crowd_size now model_cache forecast_cache history_cache];
    rewrite <- !app_assoc; eexists; (split; [reflexivity|]); simpl; auto 10.
Qed.

(** X11. The Event Input view returns normally whatever the geocoder
    answers or raises. It leaves in the session the
    four widget values and, as coordinates, the click on the map when
    there is one, else the place the geocoder found, else the coordinates
    it started with; the map is drawn at the geocoded place, before the
    click is applied; the clock and the caches are untouched. *)
Theorem event_input_view_result (v : Variant) (w : Widgets) (s : State) :
  let reply := nominatim (length (trace s) + 1) (location_name w) in
  let found := geocoded (session s) reply in
  let s' := (event_input_view v w s).1 in
  outcome (event_input_view v w) s = Ok tt /\
  session s' = MkSession (match last_clicked w with Some c => c.1 | None => found.1 end)
                         (match last_clicked w with Some c => c.2 | None => found.2 end)
                         (date_input w) (time_input w) (selectbox w) (slider w) /\
  In (Render (StFolium found.1 found.2)) (events (event_input_view v w) s) /\
  now s' = now s /\ model_cache s' = model_cache s /\
  forecast_cache s' = forecast_cache s /\ history_cache s' = history_cache s.
Proof.
  cbv zeta. destruct (event_input_view_state v w s) as (evs & Hrun & Hin).
  cbv zeta in Hrun. unfold outcome, events. rewrite Hrun.
  cbn [fst snd trace session set_trace set_session now model_cache forecast_cache
       history_cache].
  rewrite drop_app_length. unfold entered.
  destruct (last_clicked w) as [[a b]|]; repeat split; auto.
Qed.

(** X12. When the geocoder finds a place, the block sets both coordinates
    to those of the place, leaves the date, the time, the event type and
    the crowd size as they were, shows the address found and raises
    nothing. *)
Theorem geocoding_success (name : string) (s : State) (loc : Location) :
  nominatim (length (trace s)) name = Ok (Some loc) ->
  let s' := (geocoding_block name s).1 in
  outcome (geocoding_block name) s = Ok tt /\
  session s' = MkSession (loc_latitude loc) (loc_longitude loc)
                         (event_date (session s)) (event_time (session s))
                         (event_type (session s)) (crowd_size (session s)) /\
  events (geocoding_block name) s
  = [Geocode name;
     Render (StSuccess ("Found '" ++ address loc ++ "'. Map centered.")%string)].
Proof.
  intros H. cbv zeta. unfold outcome, events, geocoding_block, geocode.
  cbv [bind lift ret st emit get_session put_session try_except].
  rewrite H. simpl. rewrite <- !app_assoc, drop_app_length. repeat split.
Qed.

(** ** What the views leave alone *)

Section Keeps.

Variable R : State -> State -> Prop.
Hypothesis R_refl : forall s, R s s.
Hypothesis R_trans : forall s1 s2 s3, R s1 s2 -> R s2 s3 -> R s1 s3.
Hypothesis R_trace : forall t s, R s (set_trace t s).

Lemma keeps_ret {A} (a : A) : keeps R (ret a).
Proof using R_refl. intros s. apply R_refl. Qed.

Lemma keeps_lift {A} (r : result A) : keeps R (lift r).
Proof using R_refl. intros s. apply R_refl. Qed.

Lemma keeps_get_session : keeps R get_session.
Proof using R_refl. intros s. apply R_refl. Qed.

Lemma keeps_emit (ev : Event) : keeps R (emit ev).
Proof using R_trace. intros s. apply R_trace. Qed.

Lemma keeps_st (el : Element) : keeps R (st el).
Proof using R_trace. apply keeps_emit. Qed.

Lemma keeps_requests_get (url : string) : keeps R (requests_get url).
Proof using R_trace. intros s. apply R_trace. Qed.

Lemma keeps_bind {A B} (m : M A) (k : A -> M B) :
  keeps R m -> (forall a, keeps R (k a)) -> keeps R (bind m k).
Proof using R_trans.
  intros Hm Hk s. unfold bind. pose proof (Hm s) as H1.
  destruct (m s) as [s' [a|e]]; simpl in *; [|assumption].
  eapply R_trans; [exact H1 | apply Hk].
Qed.

Lemma keeps_try_except {A} (body : M A) (handler : exn -> M A) :
  keeps R body -> (forall e, keeps R (handler e)) -> keeps R (try_except body handler).
Proof using R_trans.
  intros Hm Hk s. unfold try_except. pose proof (Hm s) as H1.
  destruct (body s) as [s' [a|e]]; simpl in *; [assumption|].
  eapply R_trans; [exact H1 | apply Hk].
Qed.

Lemma keeps_for_each {A B} (l : list A) (acc : B) (body : B -> A -> M B) :
  (forall acc x, keeps R (body acc x)) -> keeps R (for_each l acc body).
Proof using R_refl R_trans.
  intros Hb. revert acc. induction l as [|x l IH]; intros acc; simpl.
  - apply keeps_ret.
  - apply keeps_bind; [apply Hb | intros acc'; apply IH].
Qed.

Lemma keeps_cached {K V} `{Countable K} (ttl : option Z)
    (get : State -> gmap K (CacheEntry V))
    (set : gmap K (CacheEntry V) -> State -> State) (key : K) (f : M V) :
  (forall c s, R s (set c s)) ->
  keeps R f -> keeps R (cached ttl get set key f).
Proof using R_trans R_trace.
  intros Hset Hf s. unfold cached.
  assert (Hmiss :
    R s (match f s with
         | (s', Ok v) =>
             (set (<[key := MkEntry v (omap rendered_of (drop (length (trace s)) (trace s')))
                                    (now s')]> (get s')) s', Ok v)
         | (s', Raise e) => (s', Raise e)
         end).1).
  { pose proof (Hf s) as H1. destruct (f s) as [s' [v|e]]; simpl in *; [|assumption].
    eapply R_trans; [exact H1 | apply Hset]. }
  destruct (get s !! key) as [e|]; [|exact Hmiss].
  destruct (live ttl (stored_at e) (now s)); [|exact Hmiss].
  apply R_trace.
Qed.

End Keeps.

Lemma same_inputs_refl (s : State) : same_inputs s s.
Proof. repeat split. Qed.

Lemma same_inputs_trans (s1 s2 s3 : State) :
  same_inputs s1 s2 -> same_inputs s2 s3 -> same_inputs s1 s3.
Proof. unfold same_inputs. intros (-> & -> & ->) (-> & -> & ->). repeat split. Qed.

Lemma same_inputs_trace (t : list Event) (s : State) : same_inputs s (set_trace t s).
Proof. repeat split. Qed.

Ltac keeps_step :=
  match goal with
  | |- keeps _ (bind _ _) =>
      apply (keeps_bind _ same_inputs_trans); [|intros]
  | |- keeps _ (try_except _ _) =>
      apply (keeps_try_except _ same_inputs_trans); [|intros]
  | |- keeps _ (ret _) => apply (keeps_ret _ same_inputs_refl)
  | |- keeps _ (lift _) => apply (keeps_lift _ same_inputs_refl)
  | |- keeps _ (st _) => apply (keeps_st _ same_inputs_trace)
  | |- keeps _ (emit _) => apply (keeps_emit _ same_inputs_trace)
  | |- keeps _ get_session => apply (keeps_get_session _ same_inputs_refl)
  | |- keeps _ (requests_get _) => apply (keeps_requests_get _ same_inputs_trace)
  | |- keeps _ (for_each _ _ _) =>
      apply (keeps_for_each _ same_inputs_refl same_inputs_trans); intros
  | |- keeps _ (cached _ _ _ _ _) =>
      apply (keeps_cached _ same_inputs_trans same_inputs_trace);
      [intros; repeat split|]
  | |- keeps _ (match ?x with _ => _ end) => destruct x
  | |- keeps _ (let _ := _ in _) => cbv zeta
  end.

Lemma keeps_load_model_cached (path : string) :
  keeps same_inputs (load_model_cached path).
Proof. unfold load_model_cached, load_model, open_and_load. repeat keeps_step. Qed.

Lemma keeps_history_view (v : Variant) : keeps same_inputs (history_view v).
Proof.
  unfold history_view, get_historical_daily_rain_cached, get_historical_daily_rain,
    history_step.
  repeat keeps_step.
Qed.

Lemma keeps_forecast_dashboard_view (v : Variant) (model : option Classifier)
    (fd : pyval) :
  keeps same_inputs (forecast_dashboard_view v model fd).
Proof.
  unfold forecast_dashboard_view, dashboard_body, dashboard_fallback, input_df,
    model_predict_proba.
  repeat keeps_step.
Qed.

Lemma keeps_suggestions_view (v : Variant) (model : option Classifier) (fd : pyval) :
  keeps same_inputs (suggestions_view v model fd).
Proof.
  unfold suggestions_view, suggestions_body, suggestions_fallback, input_df,
    model_predict, model_predict_proba.
  repeat keeps_step.
Qed.

(** X13. The dashboard, the History view and the suggestions view, with
    any model and any payload and whether they return or raise, leave the
    session, the clock and the forecast cache as they found them. *)
Theorem views_keep_inputs (v : Variant) (model : option Classifier) (fd : pyval)
    (s : State) :
  same_inputs s (forecast_dashboard_view v model fd s).1 /\
  same_inputs s (history_view v s).1 /\
  same_inputs s (suggestions_view v model fd s).1.
Proof.
  split; [|split].
  - apply keeps_forecast_dashboard_view.
  - apply keeps_history_view.
  - apply keeps_suggestions_view.
Qed.

(** ** A whole run *)

Lemma load_model_cached_total (path : string) (s : State) :
  exists r, outcome (load_model_cached path) s = Ok r.
Proof.
  unfold outcome, load_model_cached, cached.
  destruct (load_model_total path s) as (evs & r & ->).
  destruct (model_cache s !! path); simpl; eauto.
Qed.

Lemma script_tail_state (pre : M unit) (rest : pyval -> M unit) (s s_c : State) :
  pre s = (s_c, Ok tt) ->
  (forall fd, keeps same_inputs (rest fd)) ->
  let m := bind pre (fun _ => bind get_session (fun ss =>
             bind (get_forecast_data_cached (latitude ss) (longitude ss) (event_date ss))
                  rest)) in
  session (m s).1 = session s_c /\
  exists e, forecast_cache (m s).1 !! forecast_key (session s_c) = Some e.
Proof.
  intros Hpre Hrest. cbv zeta. unfold bind, get_session. rewrite Hpre.
  destruct (get_forecast_data_cached_run (latitude (session s_c)) (longitude (session s_c))
              (event_date (session s_c)) s_c) as (x & e & Hx & He & _).
  pose proof (get_forecast_data_cached_frame (latitude (session s_c))
                (longitude (session s_c)) (event_date (session s_c)) s_c) as (Hs & _).
  cbv zeta in Hx, He, Hs. unfold outcome in Hx.
  destruct (get_forecast_data_cached (latitude (session s_c)) (longitude (session s_c))
              (event_date (session s_c)) s_c) as [s_d [fd|err]];
    cbn [fst snd] in *; [|discriminate].
  destruct (Hrest fd s_d) as (Hs' & _ & Hc').
  split; [rewrite Hs', Hs; reflexivity|].
  exists e. unfold forecast_key. rewrite Hc'. exact He.
Qed.

Ltac keeps_views :=
  repeat match goal with
         | |- keeps _ (forecast_dashboard_view _ _ _) => apply keeps_forecast_dashboard_view
         | |- keeps _ (history_view _) => apply keeps_history_view
         | |- keeps _ (suggestions_view _ _ _) => apply keeps_suggestions_view
         | _ => keeps_step
         end.

Lemma script_body_state (v : Variant) (section : Section_) (w : Widgets)
    (model : option Classifier) (s : State) :
  let s' := (script_body v section w model s).1 in
  exists s_c,
    session s' = session s_c /\
    (exists e, forecast_cache s' !! forecast_key (session s_c) = Some e) /\
    (v = TabNav \/ section = EventInput ->
     exists reply, session s_c = entered (session s) reply w) /\
    (v = RadioNav -> section <> EventInput -> s_c = s).
Proof.
  cbv zeta. unfold script_body. cbv zeta.
  destruct (event_input_view_state v w s) as (evs & Hrun & _). cbv zeta in Hrun.
  destruct v, section; cbv beta iota.
  1, 5, 6, 7, 8:
    eexists;
    epose proof (script_tail_state (event_input_view _ w) _ s _ Hrun _) as (H1 & H2);
    (split; [exact H1|]); (split; [exact H2|]);
    (split; [intros _; eexists; reflexivity | intros; congruence]).
  all: exists s;
    epose proof (script_tail_state (ret tt) _ s s eq_refl _) as (H1 & H2);
    (split; [exact H1|]); (split; [exact H2|]);
    (split; [intros [|]; discriminate | reflexivity]).
  Unshelve.
  all: intros fd; cbv beta; keeps_views.
Qed.

(** X14. Every run of either script looks the forecast up after the Event
    Input view has written the session: when the run ends, returned or
    raised, the forecast cache holds an entry for the latitude, longitude
    and date the session then has. When Event Input was shown (always in
    [main_app.py]) these are the date and the other widget values of this
    very run, and the click on the map if there was one; when it was not,
    the session is the one the run started with. *)
Theorem script_forecast_follows_inputs (v : Variant) (section : Section_)
    (w : Widgets) (s : State) :
  let s' := (script v section w s).1 in
  (exists e, forecast_cache s' !! forecast_key (session s') = Some e) /\
  (v = TabNav \/ section = EventInput ->
   event_date (session s') = date_input w /\ event_time (session s') = time_input w /\
   event_type (session s') = selectbox w /\ crowd_size (session s') = slider w /\
   forall c, last_clicked w = Some c ->
     latitude (session s') = c.1 /\ longitude (session s') = c.2) /\
  (v = RadioNav -> section <> EventInput -> session s' = session s).
Proof.
  cbv zeta. unfold script. cbv [bind st emit]. cbn [fst snd].
  match goal with
  | |- context [load_model_cached ?p ?s0] =>
      destruct (load_model_cached_total p s0) as (model & Hload);
      pose proof (keeps_load_model_cached p s0) as (Hs & _);
      unfold outcome in Hload;
      destruct (load_model_cached p s0) as [s1 r]
  end.
  cbn [fst snd] in *. subst r. cbn [session set_trace] in Hs.
  destruct (script_body_state v section w model s1) as (s_c & H1 & H2 & H3 & H4).
  cbv zeta in H1, H2. rewrite H1. split; [exact H2|]. split.
  - intros Hshown. destruct (H3 Hshown) as (reply & ->). unfold entered.
    cbn [event_date event_time event_type crowd_size latitude longitude].
    do 4 (split; [reflexivity|]). intros c Hc. rewrite Hc. split; reflexivity.
  - intros Hv Hsec. rewrite (H4 Hv Hsec). exact Hs.
Qed.

(** X15. In [app.py] a run that shows the Event Input or the History
    section never calls the classifier, with or without a model. *)
Theorem radio_sections_without_prediction (section : Section_) (w : Widgets)
    (s : State) :
  section = EventInput \/ section = History ->
  prediction_computed (events (script RadioNav section w) s) = false.
Proof.
  intros Hsec.
  assert (Hq : quiet (script RadioNav section w)).
  { unfold script. do 2 (apply quiet_bind; [apply quiet_st | intros _]).
    apply quiet_bind; [apply quiet_load_model_cached | intros model].
    unfold script_body. cbv zeta.
    destruct Hsec as [-> | ->]; cbv beta iota;
      repeat match goal with
             | |- quiet (event_input_view _ _) => apply quiet_event_input_view
             | |- quiet (get_forecast_data_cached _ _ _) =>
                 apply quiet_get_forecast_data_cached
             | |- quiet (history_view _) => apply quiet_history_view
             | _ => quiet_step
             end. }
  destruct (Hq s) as (evs & Ht & Hevs).
  unfold events. rewrite Ht, drop_app_length. exact Hevs.
Qed.

(** X16. A forecast fetch that failed is memoized like any other: for one
    hour, on the cache as the failed call left it, a call with the same key
    issues no request, returns [None] and shows the same error message
    again. *)
Theorem forecast_failure_replayed (lat lon : spec_float) (d : date)
    (s1 s2 : State) (err : exn) :
  forecast_cache s1 !! (lat, lon, d) = None ->
  fetched (http_get (length (trace s1)) (forecast_url lat lon d)) = Raise err ->
  let m := get_forecast_data_cached lat lon d in
  forecast_cache s2 = forecast_cache (m s1).1 ->
  now s2 < now s1 + hours 1 ->
  outcome m s2 = Ok PNone /\
  events m s2
  = [Render (StError ("Could not fetch forecast data for the model: "
                      ++ exn_str err)%string)].
Proof.
  intros Hnone Herr. cbv zeta. intros Hsame Hnow.
  assert (He : forecast_cache s2 !! (lat, lon, d)
               = Some (MkEntry PNone
                         [StError ("Could not fetch forecast data for the model: "
                                   ++ exn_str err)%string] (now s1))).
  { rewrite Hsame. unfold get_forecast_data_cached.
    rewrite cached_miss by (intros e He; rewrite Hnone in He; discriminate).
    pose proof (get_forecast_data_run lat lon d s1) as Hrun. cbv zeta in Hrun.
    rewrite Hrun, Herr. cbn [fst snd trace set_trace set_forecast_cache forecast_cache now].
    rewrite drop_app_length, lookup_insert_eq. reflexivity. }
  pose proof (cached_hit (Some (hours 1)) forecast_cache set_forecast_cache (lat, lon, d)
                (get_forecast_data lat lon d) s2 _ He) as Hhit.
  cbn [stored_at cached_elements cached_value live] in Hhit.
  specialize (Hhit ltac:(apply Z.ltb_lt; assumption)).
  fold (get_forecast_data_cached lat lon d) in Hhit.
  apply run_events in Hhit as [-> ->]. split; reflexivity.
Qed.

(** X17. The tier depends on the class and the probability only: the two
    scripts name the same tier for every event type, the advice of
    [app.py] does not mention the event type at all, and the tier is the
    low one exactly when the class is not 1, that is when the Yes/No
    metric says No. *)
Theorem tier_is_script_independent (v v' : Variant) (ev ev' : EventType)
    (c : Z) (p : spec_float) :
  tier_of (risk_advice v ev c p) = tier_of (risk_advice v' ev' c p) /\
  risk_advice RadioNav ev c p = risk_advice RadioNav ev' c p /\
  (tier_of (risk_advice v ev c p) = Some LowRisk <-> c <> 1).
Proof.
  unfold risk_advice.
  destruct (Z.eqb_spec c 1) as [->|Hc]; cbn [andb].
  - destruct (PyFloat.gt p PyFloat.f0_6); cbn [tier_of risk_level];
      (split; [reflexivity|]); (split; [reflexivity|]);
      (split; [discriminate | congruence]).
  - split; [reflexivity|]. split; [reflexivity|]. split; [intros _; assumption | reflexivity].
Qed.

(** X18. The initialization of the session state seeds a key only when it
    is missing: when it returns, all six keys are there, every key that was
    there has kept its value, and running it again, on the same or on a
    later day, changes nothing; from the empty state it gives the default
    session with tomorrow as the event date. *)
Theorem initialize_seeds_once (today today' : date) (s s1 : SessionState.t) :
  SessionState.initialize today s = (s1, Ok tt) ->
  (exists ss, SessionState.complete s1 = Some ss) /\
  (forall x, SessionState.latitude s = Some x -> SessionState.latitude s1 = Some x) /\
  (forall x, SessionState.longitude s = Some x -> SessionState.longitude s1 = Some x) /\
  (forall x, SessionState.event_date s = Some x -> SessionState.event_date s1 = Some x) /\
  (forall x, SessionState.event_time s = Some x -> SessionState.event_time s1 = Some x) /\
  (forall x, SessionState.event_type s = Some x -> SessionState.event_type s1 = Some x) /\
  (forall x, SessionState.crowd_size s = Some x -> SessionState.crowd_size s1 = Some x) /\
  SessionState.initialize today' s1 = (s1, Ok tt) /\
  (s = SessionState.empty ->
   exists tomorrow, Datetime.sub_days today (-1) = Ok tomorrow /\
                    SessionState.complete s1 = Some (default_session tomorrow)).
Proof.
  unfold SessionState.initialize.
  destruct s as [lat lon d t ty n]. cbn [SessionState.latitude SessionState.longitude
    SessionState.event_date SessionState.event_time SessionState.event_type
    SessionState.crowd_size].
  destruct d as [d|].
  - intros [= <-]. destruct lat, lon, t, ty, n;
      cbn [SessionState.seed SessionState.complete SessionState.latitude
           SessionState.longitude SessionState.event_date SessionState.event_time
           SessionState.event_type SessionState.crowd_size];
      repeat split; eauto; try discriminate.
  - destruct (Datetime.sub_days today (-1)) as [tomorrow|e]; [|discriminate].
    intros [= <-]. destruct lat, lon, t, ty, n;
      cbn [SessionState.seed SessionState.complete SessionState.latitude
           SessionState.longitude SessionState.event_date SessionState.event_time
           SessionState.event_type SessionState.crowd_size];
      repeat split; eauto; try discriminate.
Qed.

End World.

(** ** The scripts on sample worlds *)

Local Open Scope list_scope.
Local Open Scope Z_scope.

(** The suggestions view of [app.py] on the sample forecast, with the
    sample classifier. *)
Example suggestions_on_sample :
  events unit
    (suggestions_view unit Sample.show_fixed RadioNav (Some Sample.classifier)
       Sample.forecast)
    (initial_state unit Sample.session 0)
  = let df := [("temperature_2m_max", [PFloat Sample.f31_5]);
               ("temperature_2m_min", [PFloat Sample.f24]);
               ("windspeed_10m_max", [PFloat Sample.f12_5])] in
    [Render unit (StHeader unit "Suggestions for Event");
     CallPredict unit df;
     CallPredictProba unit df;
     Render unit (StMetric unit "Model Prediction: Will it Rain?" "Yes");
     Render unit (StMetric unit "Chances of Rain" "<float>%");
     Render unit (StError unit "High Risk of Rain 🌧️");
     Render unit (StWarning unit "⚠️ The model predicts rain with <float>% confidence. Activating an indoor backup plan is strongly recommended.")].
Proof. reflexivity. Qed.

(** Calendar arithmetic on both sides of a leap day. *)
Example sub_days_examples :
  Datetime.sub_days (MkDate 2026 11 4) 365 = Ok (MkDate 2025 11 4) /\
  Datetime.sub_days (MkDate 2026 11 4) (5 * 365) = Ok (MkDate 2021 11 5) /\
  Datetime.sub_days (MkDate 2024 2 29) 365 = Ok (MkDate 2023 3 1) /\
  Datetime.toordinal (MkDate 1 1 1) = 1 /\
  Datetime.toordinal (MkDate 9999 12 31) = Datetime.MAXORDINAL.
Proof. repeat split. Qed.


(** A NaN probability with class 1 falls in the moderate tier: it is
    neither above 0.6 nor at most 0.6, and the second branch asks only for
    the class. *)
Lemma risk_advice_nan :
  PyFloat.gt S754_nan PyFloat.f0_6 = false /\
  PyFloat.le S754_nan PyFloat.f0_6 = false /\
  tier_of unit (risk_advice unit Sample.show_fixed RadioNav Picnic 1 S754_nan)
    = Some ModerateRisk.
Proof. repeat split. Qed.


(** C2, as stated, fails: the reply below has the key [daily] and empty
    daily arrays, hence no daily record; with a model present both views
    pass their guard, index the empty array and raise an [IndexError]
    after their header, and no fallback message is rendered. *)
Lemma prediction_guard_counterexample :
  let s := initial_state unit Sample.session 0 in
  let dash := forecast_dashboard_view unit Sample.show_fixed Sample.show_value
                Sample.chart_hourly RadioNav (Some Sample.classifier)
                Sample.forecast_no_day in
  let sugg := suggestions_view unit Sample.show_fixed RadioNav
                (Some Sample.classifier) Sample.forecast_no_day in
  daily_record Sample.forecast_no_day = None /\
  outcome unit dash s = Raise (MkExn IndexError "list index out of range") /\
  events unit dash s = [Render unit (StHeader unit "Forecast for 2026-11-04")] /\
  outcome unit sugg s = Raise (MkExn IndexError "list index out of range") /\
  events unit sugg s = [Render unit (StHeader unit "Suggestions for Event")].
Proof. cbv zeta. repeat split; vm_compute; reflexivity. Qed.

Lemma prediction_behind_guard_witness :
  let s := initial_state unit Sample.session 0 in
  let dash := forecast_dashboard_view unit Sample.show_fixed Sample.show_value
                Sample.chart_hourly TabNav (Some Sample.classifier)
                Sample.error_body in
  (exists d, Sample.error_body = PDict d /\ Py.lookup "daily" d = None) /\
  outcome unit dash s = Ok tt /\
  exists hd msg, events unit dash s
                 = [Render unit (StHeader unit hd); Render unit (StWarning unit msg)].
Proof.
  cbv zeta.
  assert (H : exists d, Sample.error_body = PDict d /\ Py.lookup "daily" d = None).
  { eexists. split; reflexivity. }
  split; [exact H|].
  destruct (prediction_behind_guard unit Sample.show_fixed Sample.show_value
              Sample.chart_hourly TabNav (Some Sample.classifier) Sample.error_body
              (initial_state unit Sample.session 0)) as (_ & Hfb & _).
  destruct (Hfb (or_intror (or_intror H))) as (Hd & _). exact Hd.
Defined.


Lemma geocoding_failure_keeps_coordinates_witness :
  let s := initial_state unit Sample.session 0 in
  let s' := (geocoding_block unit Sample.no_match "Atlantis" s).1 in
  Sample.no_match (length (trace unit s)) "Atlantis" = Ok None /\
  outcome unit (geocoding_block unit Sample.no_match "Atlantis") s = Ok tt /\
  latitude (session unit s') = PyFloat.f28_40 /\
  longitude (session unit s') = PyFloat.f77_31.
Proof.
  cbv zeta. split; [reflexivity|].
  destruct (geocoding_failure_keeps_coordinates unit Sample.no_match "Atlantis"
              (initial_state unit Sample.session 0) (or_introl eq_refl))
    as (Hok & Hlat & Hlon & _).
  split; [exact Hok|]. split; [exact Hlat | exact Hlon].
Defined.

(** C5, as stated, fails: a 304 is not a 2xx and is not an error for
    [raise_for_status]; when its body parses, the parsed body is returned
    and no message is shown. *)
Lemma get_forecast_data_counterexample :
  let s := initial_state unit Sample.session 0 in
  let net := Sample.always (Ok (MkResponse 304 (Ok Sample.forecast))) in
  let m := get_forecast_data unit Sample.show_float net
             PyFloat.f28_40 PyFloat.f77_31 Sample.tomorrow in
  ~ 200 <= 304 < 300 /\
  outcome unit m s = Ok Sample.forecast /\
  Sample.forecast <> PNone /\
  events unit m s
  = [HttpGet unit (forecast_url Sample.show_float PyFloat.f28_40 PyFloat.f77_31
                                Sample.tomorrow)].
Proof. cbv zeta. repeat split; [lia | discriminate]. Qed.

Lemma get_forecast_data_boundary_witness :
  let s := initial_state unit Sample.session 0 in
  let m net := get_forecast_data unit Sample.show_float (Sample.always net)
                 PyFloat.f28_40 PyFloat.f77_31 Sample.tomorrow in
  400 <= 400 < 600 /\
  outcome unit (m (Ok (MkResponse 400 (Ok Sample.error_body)))) s = Ok PNone /\
  outcome unit (m Sample.unreachable) s = Ok PNone /\
  outcome unit (m (Ok (MkResponse 200 (Ok Sample.forecast)))) s = Ok Sample.forecast.
Proof.
  cbv zeta. split; [lia|]. split; [|split].
  - destruct (get_forecast_data_boundary unit Sample.show_float
                (Sample.always (Ok (MkResponse 400 (Ok Sample.error_body))))
                PyFloat.f28_40 PyFloat.f77_31 Sample.tomorrow
                (initial_state unit Sample.session 0)) as (_ & _ & _ & H & _).
    destruct (H _ eq_refl ltac:(simpl; lia)) as (msg & Hout & _). exact Hout.
  - destruct (get_forecast_data_boundary unit Sample.show_float
                (Sample.always Sample.unreachable)
                PyFloat.f28_40 PyFloat.f77_31 Sample.tomorrow
                (initial_state unit Sample.session 0)) as (_ & _ & H & _).
    destruct (H _ eq_refl) as (msg & Hout & _). exact Hout.
  - destruct (get_forecast_data_boundary unit Sample.show_float
                (Sample.always (Ok (MkResponse 200 (Ok Sample.forecast))))
                PyFloat.f28_40 PyFloat.f77_31 Sample.tomorrow
                (initial_state unit Sample.session 0)) as (_ & _ & _ & _ & _ & H).
    destruct (H _ _ eq_refl ltac:(simpl; lia) eq_refl) as (Hout & _). exact Hout.
Defined.

Lemma forecast_memoized_witness :
  let net := Sample.always (Ok (MkResponse 200 (Ok Sample.forecast))) in
  let m := get_forecast_data_cached unit Sample.show_float net
             PyFloat.f28_40 PyFloat.f77_31 Sample.tomorrow in
  let s1 := initial_state unit Sample.session 0 in
  let s2 := set_now unit 3599 (m s1).1 in
  (forecast_cache unit s2 = forecast_cache unit (m s1).1 /\
   exists t, expires_at unit (m s1).1 (PyFloat.f28_40, PyFloat.f77_31, Sample.tomorrow)
             = Some t /\ now unit s2 < t) /\
  (requests_issued unit (events unit m s1) + requests_issued unit (events unit m s2) <= 1)%nat /\
  outcome unit m s2 = outcome unit m s1.
Proof.
  cbv zeta.
  assert (H1 : forecast_cache unit
                 (set_now unit 3599
                    (get_forecast_data_cached unit Sample.show_float
                       (Sample.always (Ok (MkResponse 200 (Ok Sample.forecast))))
                       PyFloat.f28_40 PyFloat.f77_31 Sample.tomorrow
                       (initial_state unit Sample.session 0)).1)
               = forecast_cache unit
                   (get_forecast_data_cached unit Sample.show_float
                       (Sample.always (Ok (MkResponse 200 (Ok Sample.forecast))))
                       PyFloat.f28_40 PyFloat.f77_31 Sample.tomorrow
                       (initial_state unit Sample.session 0)).1) by reflexivity.
  assert (H2 : exists t,
             expires_at unit
               (get_forecast_data_cached unit Sample.show_float
                  (Sample.always (Ok (MkResponse 200 (Ok Sample.forecast))))
                  PyFloat.f28_40 PyFloat.f77_31 Sample.tomorrow
                  (initial_state unit Sample.session 0)).1
               (PyFloat.f28_40, PyFloat.f77_31, Sample.tomorrow) = Some t /\
             now unit
               (set_now unit 3599
                  (get_forecast_data_cached unit Sample.show_float
                     (Sample.always (Ok (MkResponse 200 (Ok Sample.forecast))))
                     PyFloat.f28_40 PyFloat.f77_31 Sample.tomorrow
                     (initial_state unit Sample.session 0)).1) < t).
  { exists 3600. split; vm_compute; reflexivity. }
  split; [split; [exact H1 | exact H2]|].
  destruct (forecast_memoized unit Sample.show_float
              (Sample.always (Ok (MkResponse 200 (Ok Sample.forecast))))
              PyFloat.f28_40 PyFloat.f77_31 Sample.tomorrow
              (initial_state unit Sample.session 0) _ H1 H2) as (Hreq & _ & Hout).
  split; [exact Hreq | exact Hout].
Defined.




(** C3. For the event date 2024-12-31 and five successful requests, the
    rows carry the years 2020 to 2024: the offset of 365 days lands on
    2024-01-01, and 2024 is [date.year - i] for no [i] from 1 to 5. *)
Theorem history_year_of_last_day_of_leap_year :
  let s := initial_state unit Sample.session 0 in
  let net := Sample.always (Ok (MkResponse 200 (Ok (Sample.archive (PFloat Sample.f12_5))))) in
  let d := MkDate 2024 12 31 in
  let m := get_historical_daily_rain unit Sample.show_float net
             PyFloat.f28_40 PyFloat.f77_31 d in
  Datetime.sub_days d (1 * 365) = Ok (MkDate 2024 1 1) /\
  (exists rows, outcome unit m s = Ok rows /\
                map row_year rows = [2020; 2021; 2022; 2023; 2024]) /\
  ~ (exists i, 1 <= i <= 5 /\ 2024 = year d - i).
Proof.
  cbv zeta. split; [reflexivity|]. split.
  - eexists. split; reflexivity.
  - intros (i & Hi & H). simpl in H. lia.
Qed.

(** ** The further properties on sample worlds *)

Lemma load_model_remembered_witness :
  let pickle (path : string) : result Classifier := Ok Sample.classifier in
  let m := load_model_cached unit pickle "daily_rain_classifier.pkl" in
  let s1 := initial_state unit Sample.session 0 in
  let s2 := set_now unit 1000000 (m s1).1 in
  model_cache unit s2 = model_cache unit (m s1).1 /\
  files_opened unit (events unit m s1) = 1%nat /\
  files_opened unit (events unit m s2) = 0%nat /\
  outcome unit m s2 = outcome unit m s1.
Proof.
  cbv zeta. split; [reflexivity|]. split; [reflexivity|].
  destruct (load_model_remembered unit (fun _ : string => Ok Sample.classifier)
              "daily_rain_classifier.pkl" (initial_state unit Sample.session 0)
              (set_now unit 1000000
                 (load_model_cached unit (fun _ : string => Ok Sample.classifier)
                    "daily_rain_classifier.pkl"
                    (initial_state unit Sample.session 0)).1) eq_refl)
    as (Hfiles & Hout & _).
  split; [exact Hfiles | exact Hout].
Defined.

Lemma forecast_refetched_after_expiry_witness :
  let net := Sample.always (Ok (MkResponse 200 (Ok Sample.forecast))) in
  let m := get_forecast_data_cached unit Sample.show_float net
             PyFloat.f28_40 PyFloat.f77_31 Sample.tomorrow in
  let s := set_now unit 3600 (m (initial_state unit Sample.session 0)).1 in
  forecast_cache unit s !! (PyFloat.f28_40, PyFloat.f77_31, Sample.tomorrow)
    = Some (MkEntry unit pyval Sample.forecast [] 0) /\
  0 + hours 1 <= now unit s /\
  requests_issued unit (events unit m s) = 1%nat.
Proof.
  cbv zeta.
  assert (H1 : forecast_cache unit
                 (set_now unit 3600
                    (get_forecast_data_cached unit Sample.show_float
                       (Sample.always (Ok (MkResponse 200 (Ok Sample.forecast))))
                       PyFloat.f28_40 PyFloat.f77_31 Sample.tomorrow
                       (initial_state unit Sample.session 0)).1)
                 !! (PyFloat.f28_40, PyFloat.f77_31, Sample.tomorrow)
               = Some (MkEntry unit pyval Sample.forecast [] 0))
    by (vm_compute; reflexivity).
  split; [exact H1|]. split; [vm_compute; discriminate|].
  destruct (forecast_refetched_after_expiry unit Sample.show_float
              (Sample.always (Ok (MkResponse 200 (Ok Sample.forecast))))
              PyFloat.f28_40 PyFloat.f77_31 Sample.tomorrow _ _ H1
              ltac:(vm_compute; discriminate)) as (Hreq & _).
  exact Hreq.
Defined.

Lemma history_chronological_witness :
  let net := Sample.always (Ok (MkResponse 200 (Ok (Sample.archive (PFloat Sample.f12_5))))) in
  let m := get_historical_daily_rain unit Sample.show_float net
             PyFloat.f28_40 PyFloat.f77_31 Sample.tomorrow in
  offsets_exist Sample.tomorrow /\
  exists rows,
    outcome unit m (initial_state unit Sample.session 0) = Ok rows /\
    StronglySorted Z.le (map row_year rows).
Proof.
  cbv zeta.
  assert (sample_offsets_exist : offsets_exist Sample.tomorrow)
    by (split; [repeat split; vm_compute; discriminate | reflexivity]).
  split; [exact sample_offsets_exist|].
  destruct (history_chronological unit Sample.show_float
              (Sample.always (Ok (MkResponse 200 (Ok (Sample.archive (PFloat Sample.f12_5))))))
              PyFloat.f28_40 PyFloat.f77_31 Sample.tomorrow
              (initial_state unit Sample.session 0) sample_offsets_exist)
    as (rows & Hout & Hsorted & _).
  exists rows. split; [exact Hout | exact Hsorted].
Defined.

Lemma history_overflow_witness :
  let net := Sample.always (Ok (MkResponse 200 (Ok (Sample.archive (PFloat Sample.f12_5))))) in
  let s := initial_state unit Sample.session 0 in
  Datetime.toordinal (MkDate 5 12 30) <= 5 * 365 /\
  get_historical_daily_rain unit Sample.show_float net
    PyFloat.f28_40 PyFloat.f77_31 (MkDate 5 12 30) s
  = (s, Raise (MkExn OverflowError "date value out of range")).
Proof.
  cbv zeta. split; [vm_compute; discriminate|].
  destruct (history_overflow unit Sample.show_float Sample.show_date
              (Sample.always (Ok (MkResponse 200 (Ok (Sample.archive (PFloat Sample.f12_5))))))
              Sample.chart_history PyFloat.f28_40 PyFloat.f77_31 (MkDate 5 12 30)
              RadioNav (initial_state unit Sample.session 0)
              ltac:(vm_compute; discriminate)) as (Hrun & _).
  exact Hrun.
Defined.

Lemma history_memoized_witness :
  let net (n : nat) (url : string) :=
    if (n =? 1)%nat then Sample.unreachable
    else Ok (MkResponse 200 (Ok (Sample.archive (PFloat Sample.f12_5)))) in
  let m := get_historical_daily_rain_cached unit Sample.show_float net
             PyFloat.f28_40 PyFloat.f77_31 Sample.tomorrow in
  let s1 := initial_state unit Sample.session 0 in
  let s2 := set_now unit 21599 (m s1).1 in
  offsets_exist Sample.tomorrow /\
  history_cache unit s2 = history_cache unit (m s1).1 /\
  (forall e, history_cache unit (m s1).1
               !! (PyFloat.f28_40, PyFloat.f77_31, Sample.tomorrow) = Some e ->
             now unit s2 < stored_at unit (list HistoryRow) e + hours 6) /\
  requests_issued unit (events unit m s2) = 0%nat /\
  outcome unit m s2 = outcome unit m s1.
Proof.
  cbv zeta.
  assert (sample_offsets_exist : offsets_exist Sample.tomorrow)
    by (split; [repeat split; vm_compute; discriminate | reflexivity]).
  split; [exact sample_offsets_exist|].
  set (net := fun (n : nat) (url : string) =>
                if (n =? 1)%nat then Sample.unreachable
                else Ok (MkResponse 200 (Ok (Sample.archive (PFloat Sample.f12_5))))).
  assert (H1 : history_cache unit
                 (set_now unit 21599
                    (get_historical_daily_rain_cached unit Sample.show_float net
                       PyFloat.f28_40 PyFloat.f77_31 Sample.tomorrow
                       (initial_state unit Sample.session 0)).1)
               = history_cache unit
                   (get_historical_daily_rain_cached unit Sample.show_float net
                      PyFloat.f28_40 PyFloat.f77_31 Sample.tomorrow
                      (initial_state unit Sample.session 0)).1) by reflexivity.
  assert (H2 : forall e,
             history_cache unit
               (get_historical_daily_rain_cached unit Sample.show_float net
                  PyFloat.f28_40 PyFloat.f77_31 Sample.tomorrow
                  (initial_state unit Sample.session 0)).1
               !! (PyFloat.f28_40, PyFloat.f77_31, Sample.tomorrow) = Some e ->
             now unit
               (set_now unit 21599
                  (get_historical_daily_rain_cached unit Sample.show_float net
                     PyFloat.f28_40 PyFloat.f77_31 Sample.tomorrow
                     (initial_state unit Sample.session 0)).1)
             < stored_at unit (list HistoryRow) e + hours 6).
  { intros e He. vm_compute in He. injection He as <-. vm_compute. reflexivity. }
  split; [exact H1|]. split; [exact H2|].
  destruct (history_memoized unit Sample.show_float net
              PyFloat.f28_40 PyFloat.f77_31 Sample.tomorrow
              (initial_state unit Sample.session 0) _ sample_offsets_exist H1 H2)
    as (Hreq & Hout & _).
  split; [exact Hreq | exact Hout].
Defined.

Lemma history_view_run_witness :
  let net := Sample.always Sample.unreachable in
  let s := initial_state unit Sample.session 0 in
  let m := history_view unit Sample.show_float Sample.show_date net
             Sample.chart_history RadioNav in
  offsets_exist (event_date (session unit s)) /\
  history_cache unit s
    !! (latitude (session unit s), longitude (session unit s),
        event_date (session unit s)) = None /\
  outcome unit m s = Ok tt /\
  requests_issued unit (events unit m s) = 5%nat.
Proof.
  cbv zeta.
  assert (sample_offsets_exist :
            offsets_exist (event_date (session unit (initial_state unit Sample.session 0))))
    by (split; [repeat split; vm_compute; discriminate | reflexivity]).
  split; [exact sample_offsets_exist|]. split; [reflexivity|].
  destruct (history_view_run unit Sample.show_float Sample.show_date
              (Sample.always Sample.unreachable) Sample.chart_history RadioNav
              (initial_state unit Sample.session 0) sample_offsets_exist eq_refl)
    as (hd & Hrun).
  destruct Hrun as (Hout & Hev). split; [exact Hout|]. rewrite Hev. reflexivity.
Defined.


Lemma dashboard_view_success_witness :
  let s := initial_state unit Sample.session 0 in
  let r := (PFloat Sample.f31_5, PFloat Sample.f24, PFloat Sample.f12_5) in
  let m := forecast_dashboard_view unit Sample.show_fixed Sample.show_value
             Sample.chart_hourly RadioNav (Some Sample.classifier) Sample.forecast in
  daily_record Sample.forecast = Some r /\
  predict_proba Sample.classifier (features r) = Ok [[Sample.f0_25; PyFloat.f0_75]] /\
  outcome unit m s = Ok tt /\
  length (events unit m s) = 8%nat.
Proof.
  cbv zeta. split; [reflexivity|]. split; [reflexivity|].
  destruct (dashboard_view_success unit Sample.show_fixed Sample.show_value
              Sample.chart_hourly RadioNav Sample.classifier
              Sample.forecast (initial_state unit Sample.session 0)
              (PFloat Sample.f31_5, PFloat Sample.f24, PFloat Sample.f12_5)
              Sample.f0_25 PyFloat.f0_75 [] [] eq_refl eq_refl)
    as (Hout & Hev).
  split; [exact Hout|]. rewrite Hev. reflexivity.
Defined.

Lemma geocoding_success_witness :
  let place := MkLocation "Mumbai, Maharashtra, India" Sample.f24 Sample.f31_5 in
  let found (n : nat) (query : string) : result (option Location) := Ok (Some place) in
  let s := initial_state unit Sample.session 0 in
  let s' := (geocoding_block unit found "Mumbai" s).1 in
  found (length (trace unit s)) "Mumbai" = Ok (Some place) /\
  latitude (session unit s') = Sample.f24 /\
  longitude (session unit s') = Sample.f31_5 /\
  event_date (session unit s') = Sample.tomorrow.
Proof.
  cbv zeta. split; [reflexivity|].
  destruct (geocoding_success unit
              (fun (n : nat) (query : string) =>
                 Ok (Some (MkLocation "Mumbai, Maharashtra, India" Sample.f24 Sample.f31_5)))
              "Mumbai" (initial_state unit Sample.session 0)
              (MkLocation "Mumbai, Maharashtra, India" Sample.f24 Sample.f31_5) eq_refl)
    as (_ & Hsession & _).
  rewrite Hsession. repeat split.
Defined.

Lemma radio_sections_without_prediction_witness :
  let pickle (path : string) : result Classifier := Ok Sample.classifier in
  let net := Sample.always (Ok (MkResponse 200 (Ok Sample.forecast))) in
  (History = EventInput \/ History = History) /\
  prediction_computed unit
    (events unit
       (script unit Sample.show_float Sample.show_fixed Sample.show_value
          Sample.show_date pickle net Sample.no_match
          Sample.chart_hourly Sample.chart_history RadioNav History Sample.untouched)
       (initial_state unit Sample.session 0)) = false.
Proof.
  cbv zeta. split; [right; reflexivity|].
  apply (radio_sections_without_prediction unit Sample.show_float Sample.show_fixed
           Sample.show_value Sample.show_date (fun _ : string => Ok Sample.classifier)
           (Sample.always (Ok (MkResponse 200 (Ok Sample.forecast)))) Sample.no_match
           Sample.chart_hourly Sample.chart_history History Sample.untouched
           (initial_state unit Sample.session 0) (or_intror eq_refl)).
Defined.

Lemma forecast_failure_replayed_witness :
  let net := Sample.always Sample.unreachable in
  let m := get_forecast_data_cached unit Sample.show_float net
             PyFloat.f28_40 PyFloat.f77_31 Sample.tomorrow in
  let s1 := initial_state unit Sample.session 0 in
  let s2 := set_now unit 3599 (m s1).1 in
  forecast_cache unit s1 !! (PyFloat.f28_40, PyFloat.f77_31, Sample.tomorrow) = None /\
  fetched (net (length (trace unit s1))
             (forecast_url Sample.show_float PyFloat.f28_40 PyFloat.f77_31 Sample.tomorrow))
    = Raise (MkExn ConnectionError "Max retries exceeded") /\
  forecast_cache unit s2 = forecast_cache unit (m s1).1 /\
  now unit s2 < now unit s1 + hours 1 /\
  outcome unit m s2 = Ok PNone /\
  requests_issued unit (events unit m s2) = 0%nat.
Proof.
  cbv zeta. split; [reflexivity|]. split; [reflexivity|]. split; [reflexivity|].
  split; [reflexivity|].
  destruct (forecast_failure_replayed unit Sample.show_float
              (Sample.always Sample.unreachable)
              PyFloat.f28_40 PyFloat.f77_31 Sample.tomorrow
              (initial_state unit Sample.session 0)
              (set_now unit 3599
                 (get_forecast_data_cached unit Sample.show_float
                    (Sample.always Sample.unreachable)
                    PyFloat.f28_40 PyFloat.f77_31 Sample.tomorrow
                    (initial_state unit Sample.session 0)).1)
              (MkExn ConnectionError "Max retries exceeded")
              eq_refl eq_refl eq_refl eq_refl) as (Hout & Hev).
  split; [exact Hout|]. rewrite Hev. reflexivity.
Defined.

Lemma initialize_seeds_once_witness :
  let today := MkDate 2026 11 3 in
  let s1 := (SessionState.initialize today SessionState.empty).1 in
  SessionState.initialize today SessionState.empty = (s1, Ok tt) /\
  SessionState.complete s1 = Some Sample.session /\
  SessionState.initialize (MkDate 2026 11 9) s1 = (s1, Ok tt).
Proof.
  cbv zeta. split; [reflexivity|].
  destruct (initialize_seeds_once (MkDate 2026 11 3) (MkDate 2026 11 9)
              SessionState.empty
              (SessionState.initialize (MkDate 2026 11 3) SessionState.empty).1 eq_refl)
    as (_ & _ & _ & _ & _ & _ & _ & Hagain & _).
  split; [reflexivity | exact Hagain].
Defined.
